(** * Variable-scope stacks of the template engine

    A shallow embedding of [django/template/context.py]: the stack of
    dictionaries that template expressions are resolved against
    ([BaseContext]), its specialisations [Context], [RenderContext] and
    [RequestContext], and the [ContextDict] frames that [push] hands out.

    Python objects are mutable and compared by identity, so the model keeps
    an explicit store: dict objects and context instances live in two heaps
    indexed by locations, a context's [dicts] attribute is a list of
    locations (bottom frame first, as in the source), and every method is a
    function on the store. *)

From Stdlib Require Import ZArith.
From stdpp Require Import gmap strings list fin_maps.

Open Scope string_scope.
Open Scope list_scope.

(** ** Values and objects *)

Definition loc := nat.

(** Values stored under a name. The engine never inspects them; the model
    keeps the scalars that the source itself mentions plus integers. *)
Inductive value :=
  | VNone
  | VBool (b : bool)
  | VInt (n : Z).

Global Instance value_eq_dec : EqDecision value.
Proof. solve_decision. Defined.

(** Python's [==] on these scalars: [bool] is a subclass of [int], so
    [True == 1] and [False == 0]. *)
Definition py_eq (a b : value) : bool :=
  match a, b with
  | VNone, VNone => true
  | VBool x, VBool y => bool_decide (x = y)
  | VInt x, VInt y => bool_decide (x = y)
  | VBool x, VInt y | VInt y, VBool x => bool_decide (y = if x then 1%Z else 0%Z)
  | _, _ => false
  end.

Abbreviation frame := (gmap string value).

(** The objects a caller can hand to [Context.update]: a scalar, or a
    reference to a dict object. *)
Inductive pyobj :=
  | PVal (v : value)
  | PDict (l : loc).

(** The right operand of [==]: any of the above, or a context instance. *)
Inductive operand :=
  | OObj (o : pyobj)
  | OInst (c : loc).

(** [hasattr(o, '__getitem__')]: dicts define it, [None], booleans and
    integers do not. *)
Definition has_getitem (o : pyobj) : bool :=
  match o with
  | PDict _ => true
  | PVal _ => false
  end.

(** A dict object. [ContextDict] is a dict subclass with one extra
    attribute, [context]; a plain dict has none. *)
Record dict_obj := DictObj {
  items : frame;
  context : option loc
}.

Inductive klass := BaseContextC | ContextC | RenderContextC | RequestContextC.

Global Instance klass_eq_dec : EqDecision klass.
Proof. solve_decision. Defined.

(** The attributes [Context.__init__] adds to an instance. *)
Record context_attrs := ContextAttrs {
  autoescape : bool;
  current_app : option string;
  use_l10n : option bool;
  use_tz : option bool;
  render_context : loc
}.

(** An instance of [BaseContext] or of one of its subclasses. *)
Record instance := Instance {
  cls : klass;
  dicts : list loc;
  attrs : option context_attrs
}.

Record world := World {
  dict_heap : gmap loc dict_obj;
  inst_heap : gmap loc instance
}.

Definition empty_world : world := World ∅ ∅.

(** ** Outcomes and the store monad *)

Inductive exn :=
  | ContextPopException
  | KeyError (k : string)
  | TypeError
  | IndexError
  | AttributeError
  | ImportError
  | ProcessorError (n : nat).

(** [Wrong] marks a dereference of a location that holds no object, which
    Python cannot express; it is unreachable from well-formed stores. *)
Inductive outcome (A : Type) :=
  | Ok (a : A)
  | Raise (e : exn)
  | Wrong.
Arguments Ok {A} a.
Arguments Raise {A} e.
Arguments Wrong {A}.

Definition M (A : Type) : Type := world → outcome A * world.

Definition ret {A} (a : A) : M A := λ w, (Ok a, w).
Definition raise {A} (e : exn) : M A := λ w, (Raise e, w).
Definition wrong {A} : M A := λ w, (Wrong, w).

Definition bind {A B} (m : M A) (f : A → M B) : M B :=
  λ w, match m w with
       | (Ok a, w') => f a w'
       | (Raise e, w') => (Raise e, w')
       | (Wrong, w') => (Wrong, w')
       end.

Notation "x <- m ;; k" := (bind m (λ x, k))
  (at level 100, m at next level, right associativity).
Notation "m ;;; k" := (bind m (λ _, k))
  (at level 100, right associativity).

(** Methods that only read the store. *)
Definition R (A : Type) : Type := world → outcome A.

Definition lift {A} (r : R A) : M A := λ w, (r w, w).

Definition obind {A B} (o : outcome A) (f : A → outcome B) : outcome B :=
  match o with
  | Ok a => f a
  | Raise e => Raise e
  | Wrong => Wrong
  end.

Definition load_dict (l : loc) : R dict_obj :=
  λ w, match dict_heap w !! l with Some d => Ok d | None => Wrong end.

Definition load_inst (c : loc) : R instance :=
  λ w, match inst_heap w !! c with Some i => Ok i | None => Wrong end.

Definition store_dict (l : loc) (d : dict_obj) : M unit :=
  λ w, (Ok tt, World (<[l := d]> (dict_heap w)) (inst_heap w)).

Definition store_inst (c : loc) (i : instance) : M unit :=
  λ w, (Ok tt, World (dict_heap w) (<[c := i]> (inst_heap w))).

Definition alloc_dict (d : dict_obj) : M loc :=
  λ w, let l := fresh (dom (dict_heap w)) in
       (Ok l, World (<[l := d]> (dict_heap w)) (inst_heap w)).

Definition alloc_inst (i : instance) : M loc :=
  λ w, let c := fresh (dom (inst_heap w)) in
       (Ok c, World (dict_heap w) (<[c := i]> (inst_heap w))).

Definition set_dicts (i : instance) (ds : list loc) : instance :=
  Instance (cls i) ds (attrs i).

Definition set_items (d : dict_obj) (f : frame) : dict_obj :=
  DictObj f (context d).


(** ** [BaseContext] *)

Definition builtins : frame :=
  {[ "True" := VBool true; "False" := VBool false; "None" := VNone ]}.

(** [_reset_dicts]: a new builtins dict becomes the only frame, followed by
    [value] when it is not [None]. *)
Definition _reset_dicts (self : loc) (value : option loc) : M unit :=
  b <- alloc_dict (DictObj builtins None) ;;
  inst <- lift (load_inst self) ;;
  store_inst self
    (set_dicts inst ([b] ++ match value with Some v => [v] | None => [] end)).

(** [self.dicts[-1]], which raises [IndexError] on an empty list. *)
Definition top_frame (self : loc) : R loc :=
  λ w, obind (load_inst self w) (λ inst,
       match last (dicts inst) with
       | Some t => Ok t
       | None => Raise IndexError
       end).

(** A call [f(x, **kwargs)] whose keywords name a parameter that a
    positional argument has filled already raises [TypeError] before the
    body of [f] runs. [has_keyword kwargs name] tells whether the keywords
    bind [name]. *)
Definition has_keyword (kwargs : frame) (name : string) : bool :=
  bool_decide (is_Some (kwargs !! name)).

(** [ContextDict(context, *args, **kwargs)]: the parameters [self] and
    [context] of [__init__] are filled positionally, so neither may come
    again as a keyword. Otherwise build the dict from the optional
    positional mapping and the keyword arguments (keywords win), append
    the new object to [context.dicts] and remember the context. The object
    a rejected call leaves behind is unreachable and is not allocated
    here. *)
Definition ContextDict__init__ (context : loc) (args : option loc)
    (kwargs : frame) : M loc :=
  if has_keyword kwargs "self" || has_keyword kwargs "context"
  then raise TypeError
  else
    base <- match args with
            | None => ret ∅
            | Some a => d <- lift (load_dict a) ;; ret (items d)
            end ;;
    self <- alloc_dict (DictObj (kwargs ∪ base) None) ;;
    inst <- lift (load_inst context) ;;
    store_inst context (set_dicts inst (dicts inst ++ [self])) ;;;
    store_dict self (DictObj (kwargs ∪ base) (Some context)) ;;;
    ret self.

(** [push(self, *args, **kwargs)]: [self] is filled by the receiver, so a
    keyword [self] is rejected here, and a keyword [context] by the
    constructor. *)
Definition push (self : loc) (args : option loc) (kwargs : frame) : M loc :=
  if has_keyword kwargs "self" then raise TypeError
  else ContextDict__init__ self args kwargs.

(** [pop]: refuses to remove the last remaining frame. *)
Definition pop (self : loc) : M loc :=
  inst <- lift (load_inst self) ;;
  if bool_decide (length (dicts inst) = 1) then raise ContextPopException
  else match last (dicts inst) with
       | None => raise IndexError
       | Some t =>
           store_inst self (set_dicts inst (removelast (dicts inst))) ;;;
           ret t
       end.

(** [ContextDict.__enter__] and [__exit__]; the exception details passed
    to [__exit__] are ignored. *)
Definition ContextDict__enter__ (self : loc) : M loc := ret self.

Definition ContextDict__exit__ (self : loc) (exc : option exn) : M unit :=
  d <- lift (load_dict self) ;;
  match context d with
  | None => raise AttributeError
  | Some c => pop c ;;; ret tt
  end.

Definition __setitem__ (self : loc) (key : string) (v : value) : M unit :=
  t <- lift (top_frame self) ;;
  d <- lift (load_dict t) ;;
  store_dict t (set_items d (<[key := v]> (items d))).

Definition __delitem__ (self : loc) (key : string) : M unit :=
  t <- lift (top_frame self) ;;
  d <- lift (load_dict t) ;;
  match items d !! key with
  | None => raise (KeyError key)
  | Some _ => store_dict t (set_items d (delete key (items d)))
  end.

(** The loop [for d in ds: if key in d: return d[key]], with the result
    [None] when the loop runs to its end. *)
Fixpoint find_in (w : world) (key : string) (ds : list loc)
    : outcome (option value) :=
  match ds with
  | [] => Ok None
  | l :: ds' =>
      obind (load_dict l w) (λ d,
        match items d !! key with
        | Some v => Ok (Some v)
        | None => find_in w key ds'
        end)
  end.

Definition BaseContext__getitem__ (self : loc) (key : string) : R value :=
  λ w, obind (load_inst self w) (λ inst,
       obind (find_in w key (reverse (dicts inst))) (λ r,
       match r with
       | Some v => Ok v
       | None => Raise (KeyError key)
       end)).

Definition BaseContext_has_key (self : loc) (key : string) : R bool :=
  λ w, obind (load_inst self w) (λ inst,
       obind (find_in w key (dicts inst)) (λ r,
       Ok (bool_decide (is_Some r)))).

Definition BaseContext_get (self : loc) (key : string) (otherwise : value)
    : R value :=
  λ w, obind (load_inst self w) (λ inst,
       obind (find_in w key (reverse (dicts inst))) (λ r,
       Ok (default otherwise r))).

(** [flatten]: [flat.update(d)] for each frame from the bottom up; the
    bindings of [d] replace those already in [flat]. *)
Fixpoint flatten_loop (w : world) (flat : frame) (ds : list loc)
    : outcome frame :=
  match ds with
  | [] => Ok flat
  | l :: ds' =>
      obind (load_dict l w) (λ d, flatten_loop w (items d ∪ flat) ds')
  end.

Definition flatten (self : loc) : R frame :=
  λ w, obind (load_inst self w) (λ inst, flatten_loop w ∅ (dicts inst)).

(** [==] on two dicts: same number of items, and every key of the first
    is in the second with an equal value. *)
Definition dict_eq (a b : frame) : bool :=
  bool_decide (size a = size b) &&
  forallb (λ kv, match b !! kv.1 with
                 | Some v => py_eq kv.2 v
                 | None => false
                 end) (map_to_list a).

(** [__eq__]: every class of the model derives from [BaseContext], so
    [isinstance(other, BaseContext)] holds exactly for instances. *)
Definition __eq__ (self : loc) (other : operand) : R bool :=
  λ w, match other with
       | OInst o =>
           obind (load_inst o w) (λ _,
           obind (flatten self w) (λ a,
           obind (flatten o w) (λ b, Ok (dict_eq a b))))
       | OObj _ => Ok false
       end.

(** [BaseContext.__copy__]: a new instance of the same class with the same
    attribute values, then a new list holding the same frames. *)
Definition BaseContext__copy__ (self : loc) : M loc :=
  inst <- lift (load_inst self) ;;
  duplicate <- alloc_inst inst ;;
  store_inst duplicate (set_dicts inst (dicts inst)) ;;;
  ret duplicate.

(** ** [RenderContext]: reads confined to the top frame *)

Definition RenderContext_has_key (self : loc) (key : string) : R bool :=
  λ w, obind (top_frame self w) (λ t,
       obind (load_dict t w) (λ d,
       Ok (bool_decide (is_Some (items d !! key))))).

Definition RenderContext_get (self : loc) (key : string) (otherwise : value)
    : R value :=
  λ w, obind (top_frame self w) (λ t,
       obind (load_dict t w) (λ d,
       Ok (default otherwise (items d !! key)))).

Definition RenderContext__getitem__ (self : loc) (key : string) : R value :=
  λ w, obind (top_frame self w) (λ t,
       obind (load_dict t w) (λ d,
       match items d !! key with
       | Some v => Ok v
       | None => Raise (KeyError key)
       end)).

(** ** Method resolution

    [RenderContext] overrides [has_key], [get] and [__getitem__];
    [__contains__] is inherited by every class and calls [self.has_key]. *)

Definition class_of (self : loc) : R klass :=
  λ w, obind (load_inst self w) (λ inst, Ok (cls inst)).

Definition has_key (self : loc) (key : string) : R bool :=
  λ w, obind (class_of self w) (λ k,
       match k with
       | RenderContextC => RenderContext_has_key self key w
       | _ => BaseContext_has_key self key w
       end).

Definition __contains__ (self : loc) (key : string) : R bool :=
  has_key self key.

Definition get (self : loc) (key : string) (otherwise : value) : R value :=
  λ w, obind (class_of self w) (λ k,
       match k with
       | RenderContextC => RenderContext_get self key otherwise w
       | _ => BaseContext_get self key otherwise w
       end).

Definition __getitem__ (self : loc) (key : string) : R value :=
  λ w, obind (class_of self w) (λ k,
       match k with
       | RenderContextC => RenderContext__getitem__ self key w
       | _ => BaseContext__getitem__ self key w
       end).

(** ** Constructors *)

(** [BaseContext.__init__] on a newly allocated instance of class [k]. *)
Definition BaseContext__init__ (self : loc) (dict_ : option loc) : M unit :=
  _reset_dicts self dict_.

Definition new_RenderContext : M loc :=
  self <- alloc_inst (Instance RenderContextC [] None) ;;
  BaseContext__init__ self None ;;;
  ret self.

(** [Context.__init__]: the attributes first, among them a new
    [RenderContext], then the frames. *)
Definition Context__init__ (self : loc) (dict_ : option loc)
    (autoescape : bool) (current_app : option string)
    (use_l10n use_tz : option bool) : M unit :=
  rc <- new_RenderContext ;;
  inst <- lift (load_inst self) ;;
  store_inst self
    (Instance (cls inst) (dicts inst)
       (Some (ContextAttrs autoescape current_app use_l10n use_tz rc))) ;;;
  BaseContext__init__ self dict_.

Definition new_Context (dict_ : option loc) (autoescape : bool)
    (current_app : option string) (use_l10n use_tz : option bool) : M loc :=
  self <- alloc_inst (Instance ContextC [] None) ;;
  Context__init__ self dict_ autoescape current_app use_l10n use_tz ;;;
  ret self.

(** ** [Context] *)

(** [Context.__copy__]: the copy gets a copy of the render context. The
    render context of a [Context] is a [RenderContext], whose [__copy__]
    is the inherited [BaseContext.__copy__]. *)
Definition Context__copy__ (self : loc) : M loc :=
  duplicate <- BaseContext__copy__ self ;;
  inst <- lift (load_inst self) ;;
  match attrs inst with
  | None => raise AttributeError
  | Some a =>
      rc <- BaseContext__copy__ (render_context a) ;;
      dup <- lift (load_inst duplicate) ;;
      store_inst duplicate
        (Instance (cls dup) (dicts dup)
           (Some (ContextAttrs (autoescape a) (current_app a) (use_l10n a)
                    (use_tz a) rc))) ;;;
      ret duplicate
  end.

(** [copy(x)] on an instance: the [__copy__] of its class. *)
Definition copy (self : loc) : M loc :=
  k <- lift (class_of self) ;;
  match k with
  | ContextC | RequestContextC => Context__copy__ self
  | BaseContextC | RenderContextC => BaseContext__copy__ self
  end.

(** [Context.update]: push [other_dict] itself. *)
Definition Context_update (self : loc) (other_dict : pyobj) : M pyobj :=
  if negb (has_getitem other_dict) then raise TypeError
  else
    match other_dict with
    | PDict l =>
        inst <- lift (load_inst self) ;;
        store_inst self (set_dicts inst (dicts inst ++ [l])) ;;;
        ret other_dict
    | PVal _ => raise TypeError
    end.

(** [update] exists on [Context] and its subclasses only. *)
Definition update (self : loc) (other_dict : pyobj) : M pyobj :=
  k <- lift (class_of self) ;;
  match k with
  | ContextC | RequestContextC => Context_update self other_dict
  | BaseContextC | RenderContextC => raise AttributeError
  end.

(** [new]: a copy of the context whose frames are reset to the builtins
    and [values]. *)
Definition new (self : loc) (values : option loc) : M loc :=
  new_context <- copy self ;;
  _reset_dicts new_context values ;;;
  ret new_context.

(** ** [RequestContext]

    The request object, the settings and [import_string] are not part of
    this module; they are parameters. A context processor takes the request
    and returns a mapping, or raises. *)

Section RequestContext.
Variable request : Type.

Definition processor : Type := request → outcome frame.

Variable TEMPLATE_CONTEXT_PROCESSORS : list string.
Variable import_string : string → outcome processor.

Definition _builtin_context_processors : list string :=
  ["django.core.context_processors.csrf"].

Fixpoint import_all (paths : list string) : outcome (list processor) :=
  match paths with
  | [] => Ok []
  | p :: ps =>
      obind (import_string p) (λ f,
      obind (import_all ps) (λ fs, Ok (f :: fs)))
  end.

(** [get_standard_processors] under [lru_cache]: the first successful
    call stores its result, later calls return the stored tuple. *)
Definition get_standard_processors (cache : option (list processor))
    : outcome (list processor) * option (list processor) :=
  match cache with
  | Some ps => (Ok ps, cache)
  | None =>
      let context_processors :=
        (_builtin_context_processors ++ TEMPLATE_CONTEXT_PROCESSORS) in
      match import_all context_processors with
      | Ok ps => (Ok ps, Some ps)
      | Raise e => (Raise e, None)
      | Wrong => (Wrong, None)
      end
  end.

(** The loop [for processor in ps: updates.update(processor(request))]
    on the dict object [updates]. *)
Fixpoint run_processors (req : request) (updates : loc)
    (ps : list processor) : M unit :=
  match ps with
  | [] => ret tt
  | processor :: ps' =>
      r <- (λ w, (processor req, w)) ;;
      d <- lift (load_dict updates) ;;
      store_dict updates (set_items d (r ∪ items d)) ;;;
      run_processors req updates ps'
  end.

Definition RequestContext__init__ (self : loc) (req : request)
    (dict_ : option loc) (processors : option (list processor))
    (current_app : option string) (use_l10n use_tz : option bool)
    (cache : option (list processor))
    : world → (outcome unit * world) * option (list processor) :=
  λ w,
  match Context__init__ self dict_ true current_app use_l10n use_tz w with
  | (Ok _, w1) =>
      let processors := match processors with
                        | None => []
                        | Some ps => ps
                        end in
      match alloc_dict (DictObj ∅ None) w1 with
      | (Ok updates, w2) =>
          match get_standard_processors cache with
          | (Ok std, cache') =>
              ((run_processors req updates (std ++ processors) ;;;
                update self (PDict updates) ;;;
                ret tt) w2, cache')
          | (Raise e, cache') => ((Raise e, w2), cache')
          | (Wrong, cache') => ((Wrong, w2), cache')
          end
      | (Raise e, w2) => ((Raise e, w2), cache)
      | (Wrong, w2) => ((Wrong, w2), cache)
      end
  | (Raise e, w1) => ((Raise e, w1), cache)
  | (Wrong, w1) => ((Wrong, w1), cache)
  end.

Definition new_RequestContext (req : request) (dict_ : option loc)
    (processors : option (list processor)) (current_app : option string)
    (use_l10n use_tz : option bool) (cache : option (list processor))
    : world → (outcome loc * world) * option (list processor) :=
  λ w,
  match alloc_inst (Instance RequestContextC [] None) w with
  | (Ok self, w0) =>
      match RequestContext__init__ self req dict_ processors current_app
              use_l10n use_tz cache w0 with
      | ((Ok _, w'), cache') => ((Ok self, w'), cache')
      | ((Raise e, w'), cache') => ((Raise e, w'), cache')
      | ((Wrong, w'), cache') => ((Wrong, w'), cache')
      end
  | (Raise e, w0) => ((Raise e, w0), cache)
  | (Wrong, w0) => ((Wrong, w0), cache)
  end.
End RequestContext.

Arguments import_all {request} import_string paths.
Arguments get_standard_processors {request} TEMPLATE_CONTEXT_PROCESSORS
  import_string cache.
Arguments run_processors {request} req updates ps.
Arguments RequestContext__init__ {request} TEMPLATE_CONTEXT_PROCESSORS
  import_string self req dict_ processors current_app use_l10n use_tz cache.
Arguments new_RequestContext {request} TEMPLATE_CONTEXT_PROCESSORS
  import_string req dict_ processors current_app use_l10n use_tz cache.

(** The mappings a list of processors returns for one request, in order;
    the first exception ends the calls. *)
Fixpoint call_all {request : Type} (req : request)
    (ps : list (processor request)) : outcome (list frame) :=
  match ps with
  | [] => Ok []
  | p :: ps' =>
      obind (p req) (λ r,
      obind (call_all req ps') (λ rs, Ok (r :: rs)))
  end.

(** ** Resolved stacks

    [frames_of w ds] reads the contents of the dict objects [ds] refer to;
    it is defined when every reference is to an allocated dict. The two
    functions after it state lookup and flattening on contents alone. *)

Fixpoint frames_of (w : world) (ds : list loc) : option (list frame) :=
  match ds with
  | [] => Some []
  | l :: ds' =>
      match dict_heap w !! l, frames_of w ds' with
      | Some d, Some fs => Some (items d :: fs)
      | _, _ => None
      end
  end.

(** The first binding of [key] in a list of frames. *)
Fixpoint first_binding (key : string) (fs : list frame) : option value :=
  match fs with
  | [] => None
  | f :: fs' =>
      match f !! key with
      | Some v => Some v
      | None => first_binding key fs'
      end
  end.

Definition merge_frames (flat : frame) (fs : list frame) : frame :=
  fold_left (λ acc f, f ∪ acc) fs flat.

(** The operations a caller can apply to one stack, for statements about
    arbitrary sequences of them. *)
Inductive op :=
  | OpPush (args : option loc) (kwargs : frame)
  | OpPop
  | OpSet (key : string) (v : value)
  | OpDel (key : string)
  | OpMerge (o : pyobj).

Definition run_op (self : loc) (o : op) : M unit :=
  match o with
  | OpPush args kwargs => push self args kwargs ;;; ret tt
  | OpPop => pop self ;;; ret tt
  | OpSet key v => __setitem__ self key v
  | OpDel key => __delitem__ self key
  | OpMerge x => update self x ;;; ret tt
  end.

(** Run the operations in order; an exception is caught by the caller,
    who goes on with the next operation. *)
Fixpoint run_ops (self : loc) (os : list op) (w : world) : world :=
  match os with
  | [] => w
  | o :: os' => run_ops self os' (snd (run_op self o w))
  end.

(** The contents of the bottom frame of [self] are the builtins. *)
Definition builtin_floor (w : world) (self : loc) : Prop :=
  ∃ inst b rest d,
    inst_heap w !! self = Some inst ∧ dicts inst = b :: rest ∧
    dict_heap w !! b = Some d ∧ items d = builtins.

(** The frame list of [c] is non-empty and starts with the object [b]. *)
Definition floor_is (w : world) (c b : loc) : Prop :=
  ∃ inst rest, inst_heap w !! c = Some inst ∧ dicts inst = b :: rest.

(** The operations that write into the top frame, and whether the top
    entry of [c.dicts] is the object [b]. *)
Definition writes_top (o : op) : bool :=
  match o with
  | OpSet _ _ | OpDel _ => true
  | _ => false
  end.

Definition top_is (w : world) (c b : loc) : bool :=
  match inst_heap w !! c with
  | Some inst => bool_decide (last (dicts inst) = Some b)
  | None => false
  end.

(** [floor_spared c b os w]: in the run of [os] from [w], no set or
    delete is applied while the object [b] is the top entry of
    [c.dicts]. *)
Fixpoint floor_spared (c b : loc) (os : list op) (w : world) : bool :=
  match os with
  | [] => true
  | o :: os' =>
      negb (writes_top o && top_is w c b) &&
      floor_spared c b os' (snd (run_op c o w))
  end.

(** On what [==] of two dicts depends: the two have the same keys, with
    values equal under [py_eq]. *)
Definition same_bindings (a b : frame) : Prop :=
  ∀ k, match a !! k, b !! k with
       | Some x, Some y => py_eq x y = true
       | None, None => True
       | _, _ => False
       end.

(** [n] calls of [pop] in a row, returning the frames in the order they
    were removed. *)
Fixpoint pop_times (n : nat) (self : loc) : M (list loc) :=
  match n with
  | 0 => ret []
  | S n' => t <- pop self ;; ts <- pop_times n' self ;; ret (t :: ts)
  end.

(** ** Frame lists as objects

    Above, an instance holds its frame list by value, which describes
    stores where every instance has a list object of its own. Whether
    [copy] keeps it so is decided by [duplicate.dicts = self.dicts[:]].
    The module below models the part of the code that bears on it with
    the list as an object in a heap of its own: [dicts] is a reference,
    absent until [_reset_dicts] assigns it, [append] mutates the list
    referred to, and the copy of an instance first shares the list of
    the original. *)

Module Lists.

Record instance := Instance {
  cls : klass;
  dicts : option loc;
  attrs : option context_attrs
}.

Record world := World {
  dict_heap : gmap loc dict_obj;
  list_heap : gmap loc (list loc);
  inst_heap : gmap loc instance
}.

Definition empty_world : world := World ∅ ∅ ∅.

Definition M (A : Type) : Type := world → outcome A * world.

Definition ret {A} (a : A) : M A := λ w, (Ok a, w).
Definition raise {A} (e : exn) : M A := λ w, (Raise e, w).

Definition bind {A B} (m : M A) (f : A → M B) : M B :=
  λ w, match m w with
       | (Ok a, w') => f a w'
       | (Raise e, w') => (Raise e, w')
       | (Wrong, w') => (Wrong, w')
       end.

Notation "x <- m ;; k" := (bind m (λ x, k))
  (at level 100, m at next level, right associativity).
Notation "m ;;; k" := (bind m (λ _, k))
  (at level 100, right associativity).

Definition R (A : Type) : Type := world → outcome A.

Definition lift {A} (r : R A) : M A := λ w, (r w, w).

Definition load_dict (l : loc) : R dict_obj :=
  λ w, match dict_heap w !! l with Some d => Ok d | None => Wrong end.

Definition load_list (l : loc) : R (list loc) :=
  λ w, match list_heap w !! l with Some ds => Ok ds | None => Wrong end.

Definition load_inst (c : loc) : R instance :=
  λ w, match inst_heap w !! c with Some i => Ok i | None => Wrong end.

Definition store_dict (l : loc) (d : dict_obj) : M unit :=
  λ w, (Ok tt, World (<[l := d]> (dict_heap w)) (list_heap w) (inst_heap w)).

Definition store_list (l : loc) (ds : list loc) : M unit :=
  λ w, (Ok tt, World (dict_heap w) (<[l := ds]> (list_heap w)) (inst_heap w)).

Definition store_inst (c : loc) (i : instance) : M unit :=
  λ w, (Ok tt, World (dict_heap w) (list_heap w) (<[c := i]> (inst_heap w))).

Definition alloc_dict (d : dict_obj) : M loc :=
  λ w, let l := fresh (dom (dict_heap w)) in
       (Ok l, World (<[l := d]> (dict_heap w)) (list_heap w) (inst_heap w)).

Definition alloc_list (ds : list loc) : M loc :=
  λ w, let l := fresh (dom (list_heap w)) in
       (Ok l, World (dict_heap w) (<[l := ds]> (list_heap w)) (inst_heap w)).

Definition alloc_inst (i : instance) : M loc :=
  λ w, let c := fresh (dom (inst_heap w)) in
       (Ok c, World (dict_heap w) (list_heap w) (<[c := i]> (inst_heap w))).

Definition set_dicts (i : instance) (l : loc) : instance :=
  Instance (cls i) (Some l) (attrs i).

(** [self.dicts]: the list object the attribute refers to, and its
    entries. *)
Definition the_dicts (self : loc) : R loc :=
  λ w, obind (load_inst self w) (λ inst,
       match dicts inst with
       | Some l => Ok l
       | None => Raise AttributeError
       end).

Definition read_dicts (self : loc) : R (list loc) :=
  λ w, obind (the_dicts self w) (λ l, load_list l w).

(** [l.append(x)] *)
Definition append (l x : loc) : M unit :=
  ds <- lift (load_list l) ;;
  store_list l (ds ++ [x]).

(** [_reset_dicts]: [self.dicts] becomes a new list holding a new
    builtins dict, to which [value] is appended when it is not [None]. *)
Definition _reset_dicts (self : loc) (value : option loc) : M unit :=
  b <- alloc_dict (DictObj builtins None) ;;
  l <- alloc_list [b] ;;
  inst <- lift (load_inst self) ;;
  store_inst self (set_dicts inst l) ;;;
  match value with
  | None => ret tt
  | Some v => l' <- lift (the_dicts self) ;; append l' v
  end.

Definition top_frame (self : loc) : R loc :=
  λ w, obind (read_dicts self w) (λ ds,
       match last ds with
       | Some t => Ok t
       | None => Raise IndexError
       end).

(** [ContextDict(context, *args, **kwargs)]; the keywords [self] and
    [context] are rejected as above. *)
Definition ContextDict__init__ (context : loc) (args : option loc)
    (kwargs : frame) : M loc :=
  if has_keyword kwargs "self" || has_keyword kwargs "context"
  then raise TypeError
  else
    base <- match args with
            | None => ret ∅
            | Some a => d <- lift (load_dict a) ;; ret (items d)
            end ;;
    self <- alloc_dict (DictObj (kwargs ∪ base) None) ;;
    l <- lift (the_dicts context) ;;
    append l self ;;;
    store_dict self (DictObj (kwargs ∪ base) (Some context)) ;;;
    ret self.

Definition push (self : loc) (args : option loc) (kwargs : frame) : M loc :=
  if has_keyword kwargs "self" then raise TypeError
  else ContextDict__init__ self args kwargs.

Definition __setitem__ (self : loc) (key : string) (v : value) : M unit :=
  t <- lift (top_frame self) ;;
  d <- lift (load_dict t) ;;
  store_dict t (set_items d (<[key := v]> (items d))).

Fixpoint find_in (w : world) (key : string) (ds : list loc)
    : outcome (option value) :=
  match ds with
  | [] => Ok None
  | l :: ds' =>
      obind (load_dict l w) (λ d,
        match items d !! key with
        | Some v => Ok (Some v)
        | None => find_in w key ds'
        end)
  end.

Definition BaseContext__getitem__ (self : loc) (key : string) : R value :=
  λ w, obind (read_dicts self w) (λ ds,
       obind (find_in w key (reverse ds)) (λ r,
       match r with
       | Some v => Ok v
       | None => Raise (KeyError key)
       end)).

Definition BaseContext_has_key (self : loc) (key : string) : R bool :=
  λ w, obind (read_dicts self w) (λ ds,
       obind (find_in w key ds) (λ r,
       Ok (bool_decide (is_Some r)))).

Definition RenderContext_has_key (self : loc) (key : string) : R bool :=
  λ w, obind (top_frame self w) (λ t,
       obind (load_dict t w) (λ d,
       Ok (bool_decide (is_Some (items d !! key))))).

Definition RenderContext__getitem__ (self : loc) (key : string) : R value :=
  λ w, obind (top_frame self w) (λ t,
       obind (load_dict t w) (λ d,
       match items d !! key with
       | Some v => Ok v
       | None => Raise (KeyError key)
       end)).

Definition class_of (self : loc) : R klass :=
  λ w, obind (load_inst self w) (λ inst, Ok (cls inst)).

Definition has_key (self : loc) (key : string) : R bool :=
  λ w, obind (class_of self w) (λ k,
       match k with
       | RenderContextC => RenderContext_has_key self key w
       | _ => BaseContext_has_key self key w
       end).

Definition __contains__ (self : loc) (key : string) : R bool :=
  has_key self key.

Definition __getitem__ (self : loc) (key : string) : R value :=
  λ w, obind (class_of self w) (λ k,
       match k with
       | RenderContextC => RenderContext__getitem__ self key w
       | _ => BaseContext__getitem__ self key w
       end).

(** [BaseContext.__copy__]. [copy(super(BaseContext, self))] makes a new
    instance of the same class with the same attribute values, so at that
    point [duplicate.dicts] is the list object of [self]. The assignment
    of [self.dicts[:]] then gives the duplicate a new list with the same
    entries. *)
Definition BaseContext__copy__ (self : loc) : M loc :=
  inst <- lift (load_inst self) ;;
  duplicate <- alloc_inst inst ;;
  ds <- lift (read_dicts self) ;;
  l <- alloc_list ds ;;
  dup <- lift (load_inst duplicate) ;;
  store_inst duplicate (set_dicts dup l) ;;;
  ret duplicate.

(** [Context.__copy__]: the render context of a [Context] is a
    [RenderContext], whose [__copy__] is the inherited one. *)
Definition Context__copy__ (self : loc) : M loc :=
  duplicate <- BaseContext__copy__ self ;;
  inst <- lift (load_inst self) ;;
  match attrs inst with
  | None => raise AttributeError
  | Some a =>
      rc <- BaseContext__copy__ (render_context a) ;;
      dup <- lift (load_inst duplicate) ;;
      store_inst duplicate
        (Instance (cls dup) (dicts dup)
           (Some (ContextAttrs (autoescape a) (current_app a) (use_l10n a)
                    (use_tz a) rc))) ;;;
      ret duplicate
  end.

Definition copy (self : loc) : M loc :=
  k <- lift (class_of self) ;;
  match k with
  | ContextC | RequestContextC => Context__copy__ self
  | BaseContextC | RenderContextC => BaseContext__copy__ self
  end.

(** Constructors: a new instance has no attribute until [__init__]
    assigns it. *)
Definition BaseContext__init__ (self : loc) (dict_ : option loc) : M unit :=
  _reset_dicts self dict_.

Definition new_RenderContext : M loc :=
  self <- alloc_inst (Instance RenderContextC None None) ;;
  BaseContext__init__ self None ;;;
  ret self.

Definition Context__init__ (self : loc) (dict_ : option loc)
    (autoescape : bool) (current_app : option string)
    (use_l10n use_tz : option bool) : M unit :=
  rc <- new_RenderContext ;;
  inst <- lift (load_inst self) ;;
  store_inst self
    (Instance (cls inst) (dicts inst)
       (Some (ContextAttrs autoescape current_app use_l10n use_tz rc))) ;;;
  BaseContext__init__ self dict_.

Definition new_Context (dict_ : option loc) (autoescape : bool)
    (current_app : option string) (use_l10n use_tz : option bool) : M loc :=
  self <- alloc_inst (Instance ContextC None None) ;;
  Context__init__ self dict_ autoescape current_app use_l10n use_tz ;;;
  ret self.

(** A [Context()] at location [0] after [push(a=1)] and
    [push(a=2, b=3)]: its list object is at location [1] and holds the
    frames [1; 2; 3]; its render context is instance [1] with the list
    object [0]. *)
Definition sample_pushed : world :=
  snd ((c <- new_Context None true None None None ;;
        push c None {[ "a" := VInt 1 ]} ;;;
        push c None {[ "a" := VInt 2; "b" := VInt 3 ]}) empty_world).

End Lists.

(** ** Sample stores

    [sample_fresh] holds one [Context()], at location [0], with its render
    context at location [1]; [sample_pushed] is the same context after
    [push(a=1)] and [push(a=2, b=3)]. *)

Definition sample_fresh : world :=
  snd (new_Context None true None None None empty_world).

Definition sample_pushed : world :=
  snd ((push 0 None {[ "a" := VInt 1 ]} ;;;
        push 0 None {[ "a" := VInt 2; "b" := VInt 3 ]}) sample_fresh).

(** [sample_two] adds a second [Context()], at location [2], on which
    [push(a=2, b=3)] was called once: the same bindings as the first
    context, in fewer frames. *)
Definition sample_two : world :=
  snd ((c <- new_Context None true None None None ;;
        push c None {[ "a" := VInt 2; "b" := VInt 3 ]}) sample_pushed).

(** [sample_alias]: on a [Context()] at location [0], one empty dict [d]
    (location [2]) was merged twice: [c.update(d); c.update(d)]. *)
Definition sample_alias : world :=
  snd ((d <- alloc_dict (DictObj ∅ None) ;;
        update 0 (PDict d) ;;;
        update 0 (PDict d)) sample_fresh).

(** The store before the top frame of [c] was pushed: the same objects,
    with the last entry of [c.dicts] not yet there. *)
Definition drop_top (w : world) (c : loc) : world :=
  match inst_heap w !! c with
  | Some inst =>
      World (dict_heap w)
        (<[c := set_dicts inst (removelast (dicts inst))]> (inst_heap w))
  | None => w
  end.

(** [sample_render]: a [RenderContext()] at location [0] after
    [push(x=1)] and [push()]. *)
Definition sample_render : world :=
  snd ((c <- new_RenderContext ;;
        push c None {[ "x" := VInt 1 ]} ;;;
        push c None ∅) empty_world).

(** Sample processors over a request with nothing in it: the built-in
    one returns [{a: 1}], the one configured under the name
    ["configured"] returns [{a: 2, b: 2}], the caller's returns
    [{b: 3, c: 3}]. *)
Definition sample_builtin : processor unit := λ _, Ok {[ "a" := VInt 1 ]}.

Definition sample_configured : processor unit :=
  λ _, Ok {[ "a" := VInt 2; "b" := VInt 2 ]}.

Definition sample_caller : processor unit :=
  λ _, Ok {[ "b" := VInt 3; "c" := VInt 3 ]}.

Definition sample_import (path : string) : outcome (processor unit) :=
  if bool_decide (path = "django.core.context_processors.csrf")
  then Ok sample_builtin
  else if bool_decide (path = "configured") then Ok sample_configured
  else Raise ImportError.

(** A processor that raises, and a second import function under which
    every path fails. *)
Definition sample_failing : processor unit := λ _, Raise (ProcessorError 1).

Definition sample_import_broken (path : string) : outcome (processor unit) :=
  Raise ImportError.

(** * Properties *)

Section frames.
Implicit Types (w : world) (ds : list loc) (fs : list frame) (k : string).

Lemma frames_of_app w ds1 ds2 :
  frames_of w (ds1 ++ ds2) =
  match frames_of w ds1, frames_of w ds2 with
  | Some f1, Some f2 => Some (f1 ++ f2)
  | _, _ => None
  end.
Proof.
  induction ds1 as [|l ds1 IH]; simpl.
  - by destruct (frames_of w ds2).
  - rewrite IH. destruct (dict_heap w !! l); [|done].
    destruct (frames_of w ds1); [|done]. by destruct (frames_of w ds2).
Qed.

Lemma frames_of_reverse w ds fs :
  frames_of w ds = Some fs → frames_of w (reverse ds) = Some (reverse fs).
Proof.
  revert fs. induction ds as [|l ds IH]; intros fs; simpl.
  - by intros [= <-].
  - destruct (dict_heap w !! l) as [d|] eqn:Hl; [|done].
    destruct (frames_of w ds) as [fs'|]; [|done]. intros [= <-].
    rewrite !reverse_cons, frames_of_app, (IH fs' eq_refl). simpl.
    by rewrite Hl.
Qed.

Lemma frames_of_length w ds fs :
  frames_of w ds = Some fs → length fs = length ds.
Proof.
  revert fs. induction ds as [|l ds IH]; intros fs; simpl.
  - by intros [= <-].
  - destruct (dict_heap w !! l); [|done].
    destruct (frames_of w ds) as [fs'|]; [|done]. intros [= <-].
    simpl. by rewrite (IH fs' eq_refl).
Qed.

Lemma find_in_frames w k ds fs :
  frames_of w ds = Some fs → find_in w k ds = Ok (first_binding k fs).
Proof.
  revert fs. induction ds as [|l ds IH]; intros fs; simpl.
  - by intros [= <-].
  - unfold load_dict. destruct (dict_heap w !! l) as [d|]; [|done].
    destruct (frames_of w ds) as [fs'|]; [|done]. intros [= <-]. simpl.
    destruct (items d !! k); [done|]. by apply IH.
Qed.

Lemma flatten_loop_frames w flat ds fs :
  frames_of w ds = Some fs →
  flatten_loop w flat ds = Ok (merge_frames flat fs).
Proof.
  revert flat fs. induction ds as [|l ds IH]; intros flat fs; simpl.
  - by intros [= <-].
  - unfold load_dict. destruct (dict_heap w !! l) as [d|]; [|done].
    destruct (frames_of w ds) as [fs'|]; [|done]. intros [= <-]. simpl.
    by apply IH.
Qed.

(** Flattening resolves every key the way a top-down search does. *)
Lemma merge_frames_lookup flat fs k :
  merge_frames flat fs !! k =
  match first_binding k (reverse fs) with
  | Some v => Some v
  | None => flat !! k
  end.
Proof.
  revert flat. induction fs as [|f fs IH]; intros flat; [done|].
  unfold merge_frames in *. simpl. rewrite IH, reverse_cons.
  clear IH. induction (reverse fs) as [|g gs IH]; simpl.
  - rewrite lookup_union. destruct (f !! k), (flat !! k); done.
  - destruct (g !! k); [done|]. apply IH.
Qed.

Lemma first_binding_app k fs1 fs2 :
  first_binding k (fs1 ++ fs2) =
  match first_binding k fs1 with
  | Some v => Some v
  | None => first_binding k fs2
  end.
Proof.
  induction fs1 as [|f fs1 IH]; simpl; [by destruct (first_binding k fs2)|].
  by destruct (f !! k).
Qed.

(** The top-down search returns the binding of the last frame, in
    bottom-up order, that has the key. *)
Lemma first_binding_reverse_Some k fs :
  (∃ f, f ∈ fs ∧ is_Some (f !! k)) →
  ∃ i f v, fs !! i = Some f ∧ f !! k = Some v ∧
    (∀ j g, i < j → fs !! j = Some g → g !! k = None) ∧
    first_binding k (reverse fs) = Some v.
Proof.
  induction fs as [|f fs IH] using rev_ind.
  - intros (f & Hf & _). by apply elem_of_nil in Hf.
  - intros (g & Hg & Hk). rewrite reverse_snoc. simpl.
    destruct (f !! k) as [v|] eqn:Hfk.
    + exists (length fs), f, v. split_and!; [|done| |done].
      * by rewrite lookup_app_r, Nat.sub_diag by lia.
      * intros j h Hj Hh. apply lookup_lt_Some in Hh.
        rewrite length_app in Hh. simpl in Hh. lia.
    + apply elem_of_app in Hg as [Hg|Hg].
      * destruct IH as (i & h & v & Hi & Hv & Hlast & Hfb); [by eauto|].
        exists i, h, v. split_and!; [|done| |done].
        -- by rewrite lookup_app_l by (by eapply lookup_lt_Some).
        -- intros j h' Hj Hh'.
           destruct (decide (j < length fs)) as [Hlt|Hge].
           ++ rewrite lookup_app_l in Hh' by done. by eapply Hlast.
           ++ rewrite lookup_app_r in Hh' by lia.
              destruct (j - length fs) as [|n]; simpl in Hh'; [|done].
              by injection Hh' as <-.
      * apply list_elem_of_singleton in Hg as ->.
        rewrite Hfk in Hk. by destruct Hk.
Qed.
End frames.

(** ** Lookup and flatten agree on precedence *)

Lemma BaseContext__getitem___frames w c inst fs k :
  inst_heap w !! c = Some inst →
  frames_of w (dicts inst) = Some fs →
  BaseContext__getitem__ c k w =
  match first_binding k (reverse fs) with
  | Some v => Ok v
  | None => Raise (KeyError k)
  end.
Proof.
  intros Hc Hfs. unfold BaseContext__getitem__, load_inst. rewrite Hc. simpl.
  by rewrite (find_in_frames _ _ _ _ (frames_of_reverse _ _ _ Hfs)).
Qed.

Lemma flatten_frames w c inst fs :
  inst_heap w !! c = Some inst →
  frames_of w (dicts inst) = Some fs →
  flatten c w = Ok (merge_frames ∅ fs).
Proof.
  intros Hc Hfs. unfold flatten, load_inst. rewrite Hc. simpl.
  by apply flatten_loop_frames.
Qed.

(** C1. On a stack with the lookup of [BaseContext], a key bound in some
    frame resolves to the binding of the most recently pushed frame that
    has it (the frame of highest index in [dicts]), and [flatten] maps the
    key to that same value. *)
Theorem lookup_flatten_agree (w : world) (c : loc) (inst : instance)
    (fs : list frame) (k : string) :
  inst_heap w !! c = Some inst →
  cls inst ≠ RenderContextC →
  frames_of w (dicts inst) = Some fs →
  (∃ f, f ∈ fs ∧ is_Some (f !! k)) →
  ∃ i f v,
    fs !! i = Some f ∧ f !! k = Some v ∧
    (∀ j g, i < j → fs !! j = Some g → g !! k = None) ∧
    __getitem__ c k w = Ok v ∧
    ∃ flat, flatten c w = Ok flat ∧ flat !! k = Some v.
Proof.
  intros Hc Hcls Hfs Hex.
  destruct (first_binding_reverse_Some k fs Hex)
    as (i & f & v & Hi & Hv & Hlast & Hfb).
  exists i, f, v. split_and!; [done..| |].
  - assert (BaseContext__getitem__ c k w = Ok v) as Hget.
    { rewrite (BaseContext__getitem___frames _ _ _ _ _ Hc Hfs). by rewrite Hfb. }
    unfold __getitem__, class_of, load_inst. rewrite Hc. simpl.
    by destruct (cls inst).
  - exists (merge_frames ∅ fs). split; [by eapply flatten_frames|].
    by rewrite merge_frames_lookup, Hfb.
Qed.

Lemma lookup_flatten_agree_witness :
  ∃ i f v,
    [builtins; {[ "a" := VInt 1 ]}; {[ "a" := VInt 2; "b" := VInt 3 ]}] !! i
      = Some f ∧
    f !! "a" = Some v ∧
    (∀ j g, i < j →
       [builtins; {[ "a" := VInt 1 ]}; {[ "a" := VInt 2; "b" := VInt 3 ]}] !! j
         = Some g → g !! "a" = None) ∧
    __getitem__ 0 "a" sample_pushed = Ok v ∧
    ∃ flat, flatten 0 sample_pushed = Ok flat ∧ flat !! "a" = Some v.
Proof.
  apply (lookup_flatten_agree sample_pushed 0
           (Instance ContextC [1; 2; 3]
              (Some (ContextAttrs true None None None 1)))).
  - vm_compute. reflexivity.
  - simpl. discriminate.
  - vm_compute. reflexivity.
  - exists {[ "a" := VInt 1 ]}. split.
    + apply list_elem_of_In. simpl. tauto.
    + exists (VInt 1). vm_compute. reflexivity.
Defined.

(** ** The floor of the stack *)

Ltac unfold_methods :=
  unfold run_op, push, ContextDict__init__, pop, __setitem__, __delitem__,
    update, Context_update, top_frame, class_of, load_inst, load_dict,
    alloc_dict, store_inst, store_dict, set_dicts, bind, lift, ret, raise,
    obind in *.

(** The two outcomes of [push]: the keywords are rejected, or the frame
    is built and appended. *)
Lemma push_body c args kwargs w :
  push c args kwargs w =
  if has_keyword kwargs "self" || has_keyword kwargs "context"
  then (Raise TypeError, w)
  else (base <- match args with
                | None => ret ∅
                | Some a => d <- lift (load_dict a) ;; ret (items d)
                end ;;
        self <- alloc_dict (DictObj (kwargs ∪ base) None) ;;
        inst <- lift (load_inst c) ;;
        store_inst c (set_dicts inst (dicts inst ++ [self])) ;;;
        store_dict self (DictObj (kwargs ∪ base) (Some c)) ;;;
        ret self) w.
Proof.
  unfold push, ContextDict__init__.
  destruct (has_keyword kwargs "self"); simpl; [done|].
  by destruct (has_keyword kwargs "context").
Qed.

Lemma has_keyword_None kwargs name :
  kwargs !! name = None → has_keyword kwargs name = false.
Proof.
  intros H. unfold has_keyword. apply bool_decide_eq_false.
  rewrite H. by intros [? ?].
Qed.

Lemma keywords_accepted kwargs :
  kwargs !! "self" = None → kwargs !! "context" = None →
  has_keyword kwargs "self" || has_keyword kwargs "context" = false.
Proof. intros Hs Hc. by rewrite !has_keyword_None. Qed.

Lemma fresh_not_allocated {A} (m : gmap loc A) (l : loc) :
  is_Some (m !! l) → l ≠ fresh (dom m).
Proof.
  intros Hl ->. apply elem_of_dom in Hl. by apply is_fresh in Hl.
Qed.

Lemma fresh_lookup_None {A} (m : gmap loc A) : m !! fresh (dom m) = None.
Proof. apply not_elem_of_dom, is_fresh. Qed.

(** [push] changes no other instance and no dict that exists already. *)
Lemma push_frame_effect c args kwargs w :
  (∀ c', c' ≠ c →
     inst_heap (snd (push c args kwargs w)) !! c' = inst_heap w !! c') ∧
  (∀ l, is_Some (dict_heap w !! l) →
     dict_heap (snd (push c args kwargs w)) !! l = dict_heap w !! l).
Proof.
  assert (∀ base,
    let w' := snd ((self <- alloc_dict (DictObj (kwargs ∪ base) None) ;;
                    inst <- lift (load_inst c) ;;
                    store_inst c (set_dicts inst (dicts inst ++ [self])) ;;;
                    store_dict self (DictObj (kwargs ∪ base) (Some c)) ;;;
                    ret self) w) in
    (∀ c', c' ≠ c → inst_heap w' !! c' = inst_heap w !! c') ∧
    (∀ l, is_Some (dict_heap w !! l) → dict_heap w' !! l = dict_heap w !! l))
    as Hbody.
  { intros base. unfold_methods. simpl.
    destruct (inst_heap w !! c) as [inst|]; simpl.
    - split.
      + intros c' Hc'. by rewrite lookup_insert_ne.
      + intros l Hl. apply fresh_not_allocated in Hl.
        by rewrite !lookup_insert_ne.
    - split; [done|]. intros l Hl. apply fresh_not_allocated in Hl.
      by rewrite lookup_insert_ne. }
  rewrite push_body.
  destruct (has_keyword kwargs "self" || has_keyword kwargs "context");
    [done|].
  assert ((base <- match args with
                   | None => ret ∅
                   | Some a => d <- lift (load_dict a) ;; ret (items d)
                   end ;;
           self <- alloc_dict (DictObj (kwargs ∪ base) None) ;;
           inst <- lift (load_inst c) ;;
           store_inst c (set_dicts inst (dicts inst ++ [self])) ;;;
           store_dict self (DictObj (kwargs ∪ base) (Some c)) ;;;
           ret self) w =
          match args with
          | None =>
              (self <- alloc_dict (DictObj (kwargs ∪ ∅) None) ;;
               inst <- lift (load_inst c) ;;
               store_inst c (set_dicts inst (dicts inst ++ [self])) ;;;
               store_dict self (DictObj (kwargs ∪ ∅) (Some c)) ;;;
               ret self) w
          | Some a =>
              match dict_heap w !! a with
              | Some d =>
                  (self <- alloc_dict (DictObj (kwargs ∪ items d) None) ;;
                   inst <- lift (load_inst c) ;;
                   store_inst c (set_dicts inst (dicts inst ++ [self])) ;;;
                   store_dict self (DictObj (kwargs ∪ items d) (Some c)) ;;;
                   ret self) w
              | None => (Wrong, w)
              end
          end) as ->.
  { destruct args as [a|]; [|done].
    unfold bind, lift, load_dict, ret.
    by destruct (dict_heap w !! a). }
  destruct args as [a|]; [|apply (Hbody ∅)].
  destruct (dict_heap w !! a) as [d|]; [apply (Hbody (items d))|done].
Qed.

Lemma removelast_cons_cons {A} (x y : A) (l : list A) :
  removelast (x :: y :: l) = x :: removelast (y :: l).
Proof. done. Qed.

Lemma run_op_floor c o w b : floor_is w c b → floor_is (snd (run_op c o w)) c b.
Proof.
  intros (inst & rest & Hc & Hd). unfold floor_is.
  destruct o as [args kwargs| |key v|key|x];
    [unfold run_op, bind at 1; rewrite push_body;
     destruct (has_keyword kwargs "self" || has_keyword kwargs "context");
       [by eauto|]
    |..]; unfold_methods; simpl.
  - destruct args as [a|]; simpl.
    + destruct (dict_heap w !! a); simpl; [|by eauto].
      rewrite Hc. simpl. rewrite lookup_insert_eq.
      eexists _, (rest ++ [_]). split; [done|]. simpl. by rewrite Hd.
    + rewrite Hc. simpl. rewrite lookup_insert_eq.
      eexists _, (rest ++ [_]). split; [done|]. simpl. by rewrite Hd.
  - rewrite Hc. simpl. rewrite Hd. case_bool_decide; simpl; [by eauto|].
    destruct rest as [|r rest]; [done|].
    destruct (last (b :: r :: rest)); simpl; [|by eauto].
    rewrite lookup_insert_eq. eexists _, (removelast (r :: rest)).
    split; [done|]. apply removelast_cons_cons.
  - rewrite Hc. simpl. destruct (last (dicts inst)); simpl; [|by eauto].
    destruct (dict_heap w !! l); simpl; by eauto.
  - rewrite Hc. simpl. destruct (last (dicts inst)); simpl; [|by eauto].
    destruct (dict_heap w !! l) as [d|]; simpl; [|by eauto].
    destruct (items d !! key); simpl; by eauto.
  - rewrite Hc. simpl.
    assert (∀ m : M pyobj,
      (∃ i r, inst_heap (snd (m w)) !! c = Some i ∧ dicts i = b :: r) →
      ∃ i r, inst_heap (snd (match m w with
                             | (Ok _, w') => (Ok (), w')
                             | (Raise e, w') => (Raise e, w')
                             | (Wrong, w') => (Wrong, w')
                             end)) !! c = Some i ∧ dicts i = b :: r) as Hk.
    { intros m. by destruct (m w) as [[?|?|] ?]. }
    destruct (cls inst); simpl; [by eauto| |by eauto|].
    all: destruct x as [v|l]; simpl; [by eauto|].
    all: rewrite Hc; simpl; rewrite lookup_insert_eq.
    all: eexists _, (rest ++ [l]); split; [done|]; simpl; by rewrite Hd.
Qed.

Lemma run_ops_floor c os w b : floor_is w c b → floor_is (run_ops c os w) c b.
Proof.
  revert w. induction os as [|o os IH]; intros w Hw; [done|].
  simpl. by apply IH, run_op_floor.
Qed.

Lemma pop_floor w c inst b :
  inst_heap w !! c = Some inst → dicts inst = [b] →
  pop c w = (Raise ContextPopException, w).
Proof. intros Hc Hd. unfold_methods. by rewrite Hc, Hd. Qed.

Lemma snd_bind_ret {A} (m : M A) w : snd ((m ;;; ret tt) w) = snd (m w).
Proof. unfold bind, ret. by destruct (m w) as [[?|?|] ?]. Qed.

(** An operation other than a set or delete on the top frame [b] leaves
    the dict object [b] as it is. *)
Lemma run_op_spares_floor c o w b d :
  dict_heap w !! b = Some d →
  negb (writes_top o && top_is w c b) = true →
  dict_heap (snd (run_op c o w)) !! b = Some d.
Proof.
  intros Hb Hguard.
  destruct o as [args kwargs| |key v|key|x]; simpl in *.
  - rewrite snd_bind_ret.
    destruct (push_frame_effect c args kwargs w) as [_ Hdh].
    rewrite Hdh; [done|by eexists].
  - rewrite snd_bind_ret. unfold_methods. simpl.
    destruct (inst_heap w !! c) as [inst|]; simpl; [|done].
    case_bool_decide; simpl; [done|].
    by destruct (last (dicts inst)).
  - unfold top_is in Hguard. unfold_methods. simpl.
    destruct (inst_heap w !! c) as [inst|]; simpl; [|done].
    destruct (last (dicts inst)) as [t|]; simpl; [|done].
    destruct (dict_heap w !! t) as [dt|]; simpl; [|done].
    apply negb_true_iff, bool_decide_eq_false in Hguard.
    rewrite lookup_insert_ne; [done|]. intros ->. done.
  - unfold top_is in Hguard. unfold_methods. simpl.
    destruct (inst_heap w !! c) as [inst|]; simpl; [|done].
    destruct (last (dicts inst)) as [t|]; simpl; [|done].
    destruct (dict_heap w !! t) as [dt|]; simpl; [|done].
    destruct (items dt !! key); simpl; [|done].
    apply negb_true_iff, bool_decide_eq_false in Hguard.
    rewrite lookup_insert_ne; [done|]. intros ->. done.
  - rewrite snd_bind_ret. unfold_methods. simpl.
    destruct (inst_heap w !! c) as [inst|] eqn:Hc; simpl; [|done].
    destruct (cls inst); simpl; try done.
    all: destruct x as [v|l]; simpl; [done|].
    all: by rewrite Hc.
Qed.

Lemma run_ops_spares_floor c os : ∀ w b d,
  dict_heap w !! b = Some d →
  floor_spared c b os w = true →
  dict_heap (run_ops c os w) !! b = Some d.
Proof.
  induction os as [|o os IH]; intros w b d Hb Hsp; [done|].
  simpl in *. apply andb_true_iff in Hsp as [Ho Hos].
  apply IH; [|done]. by apply run_op_spares_floor.
Qed.

(** C2, as the code has it. [pop] on a stack of one frame raises
    [ContextPopException] and changes nothing, and whatever sequence of
    push, pop, set, delete and merge is applied, the frame list stays
    non-empty with the same object at the bottom. That object holds the
    builtins for as long as no set or delete is applied while it is the
    top entry of the frame list (it is on a stack of one frame, and after
    a merge of the bottom object itself): such a sequence leaves the
    bottom object exactly as it was. *)
Theorem pop_underflow_and_floor (w : world) (c : loc) (inst : instance)
    (b : loc) (rest : list loc) :
  inst_heap w !! c = Some inst →
  dicts inst = b :: rest →
  (rest = [] → pop c w = (Raise ContextPopException, w)) ∧
  (∀ os, ∃ inst' rest',
     inst_heap (run_ops c os w) !! c = Some inst' ∧
     dicts inst' = b :: rest') ∧
  (∀ os d,
     dict_heap w !! b = Some d → items d = builtins →
     floor_spared c b os w = true →
     dict_heap (run_ops c os w) !! b = Some d ∧
     builtin_floor (run_ops c os w) c).
Proof.
  intros Hc Hd.
  assert (∀ os, floor_is (run_ops c os w) c b) as Hfloor.
  { intros os. apply run_ops_floor. by exists inst, rest. }
  split_and!.
  - intros ->. by eapply pop_floor.
  - exact Hfloor.
  - intros os d Hb Hitems Hsp.
    pose proof (run_ops_spares_floor c os w b d Hb Hsp) as Hb'.
    split; [done|].
    destruct (Hfloor os) as (inst' & rest' & Hc' & Hd').
    by exists inst', b, rest', d.
Qed.

Lemma pop_underflow_and_floor_witness :
  ([] = @nil loc →
   pop 0 sample_fresh = (Raise ContextPopException, sample_fresh)) ∧
  (∀ os, ∃ inst' rest',
     inst_heap (run_ops 0 os sample_fresh) !! 0 = Some inst' ∧
     dicts inst' = 1 :: rest') ∧
  builtin_floor
    (run_ops 0 [OpPush None {[ "a" := VInt 1 ]}; OpSet "True" (VInt 0);
                OpDel "a"; OpPop; OpPop] sample_fresh) 0.
Proof.
  destruct (pop_underflow_and_floor sample_fresh 0
              (Instance ContextC [1]
                 (Some (ContextAttrs true None None None 1))) 1 [])
    as (Hpop & Hfloor & Hitems).
  - vm_compute. reflexivity.
  - reflexivity.
  - split_and!; [exact Hpop|exact Hfloor|].
    apply (Hitems _ (DictObj builtins None)).
    + vm_compute. reflexivity.
    + reflexivity.
    + vm_compute. reflexivity.
Defined.

(** C2 as stated fails: on [Context()] the bottom frame is also the top
    frame, so one assignment changes the builtins. *)
Lemma builtin_floor_not_preserved :
  builtin_floor sample_fresh 0 ∧
  ¬ builtin_floor (run_ops 0 [OpSet "True" (VInt 0)] sample_fresh) 0.
Proof.
  split.
  - exists (Instance ContextC [1] (Some (ContextAttrs true None None None 1))),
      1, [], (DictObj builtins None).
    split_and!; vm_compute; reflexivity.
  - intros (inst & b & rest & d & Hc & Hd & Hb & Hi).
    vm_compute in Hc. injection Hc as <-. simpl in Hd. injection Hd as <- <-.
    assert (dict_heap (run_ops 0 [OpSet "True" (VInt 0)] sample_fresh) !! 1
            = Some (DictObj (<["True" := VInt 0]> builtins) None)) as Hb'.
    { vm_compute. reflexivity. }
    pose proof (eq_trans (eq_sym Hb) Hb') as Hd'. injection Hd' as ->.
    simpl in Hi.
    apply (f_equal (λ m : frame, m !! "True")) in Hi.
    vm_compute in Hi. discriminate.
Qed.

(** ** Equality is equality of the flattened stacks *)

Lemma dict_eq_spec (a b : frame) : dict_eq a b = true ↔ same_bindings a b.
Proof.
  unfold dict_eq, same_bindings. rewrite andb_true_iff, forallb_forall.
  rewrite bool_decide_eq_true. split.
  - intros [Hsize Hall].
    assert (∀ k x, a !! k = Some x →
              ∃ y, b !! k = Some y ∧ py_eq x y = true) as Hsub.
    { intros k x Hk.
      specialize (Hall (k, x)). simpl in Hall.
      destruct (b !! k) as [y|].
      - exists y. split; [done|]. apply Hall.
        apply list_elem_of_In. by apply elem_of_map_to_list.
      - exfalso. assert (false = true) as Hf; [|done]. apply Hall.
        apply list_elem_of_In. by apply elem_of_map_to_list. }
    assert (dom a = dom b) as Hdom.
    { apply set_subseteq_size_eq.
      - intros k Hk. apply elem_of_dom in Hk as [x Hx].
        destruct (Hsub k x Hx) as (y & Hy & _). apply elem_of_dom. by eexists.
      - rewrite !size_dom. lia. }
    intros k. destruct (a !! k) as [x|] eqn:Hak.
    + destruct (Hsub k x Hak) as (y & -> & Hxy). done.
    + destruct (b !! k) as [y|] eqn:Hbk; [|done].
      assert (k ∈ dom a) as Hin.
      { rewrite Hdom. apply elem_of_dom. by eexists. }
      apply elem_of_dom in Hin as [x Hx]. congruence.
  - intros Hall. split.
    + rewrite <- !size_dom. f_equal. apply set_eq. intros k.
      rewrite !elem_of_dom. specialize (Hall k).
      destruct (a !! k), (b !! k); try done; split; intros [? ?]; done.
    + intros [k x] Hin. simpl.
      apply list_elem_of_In, elem_of_map_to_list in Hin.
      specialize (Hall k). rewrite Hin in Hall. by destruct (b !! k).
Qed.

(** C3. For two instances whose frames are all allocated, [A == B] is
    [true] exactly when the two flattened dicts are equal, and [false]
    exactly when they are not. That equality looks at no frame boundary:
    it holds if and only if every key resolves, top frame first, to equal
    values in both stacks or to none in both. *)
Theorem eq_iff_flatten_eq (w : world) (A B : loc) (ia ib : instance)
    (fa fb : list frame) :
  inst_heap w !! A = Some ia →
  inst_heap w !! B = Some ib →
  frames_of w (dicts ia) = Some fa →
  frames_of w (dicts ib) = Some fb →
  ∃ flatA flatB,
    flatten A w = Ok flatA ∧ flatten B w = Ok flatB ∧
    (__eq__ A (OInst B) w = Ok true ↔ dict_eq flatA flatB = true) ∧
    (__eq__ A (OInst B) w = Ok false ↔ dict_eq flatA flatB = false) ∧
    (dict_eq flatA flatB = true ↔
       ∀ k, match first_binding k (reverse fa),
                  first_binding k (reverse fb) with
            | Some x, Some y => py_eq x y = true
            | None, None => True
            | _, _ => False
            end).
Proof.
  intros HA HB Hfa Hfb.
  exists (merge_frames ∅ fa), (merge_frames ∅ fb).
  pose proof (flatten_frames _ _ _ _ HA Hfa) as HflatA.
  pose proof (flatten_frames _ _ _ _ HB Hfb) as HflatB.
  assert (__eq__ A (OInst B) w
          = Ok (dict_eq (merge_frames ∅ fa) (merge_frames ∅ fb))) as Heq.
  { unfold __eq__, load_inst. rewrite HB. simpl.
    by rewrite HflatA, HflatB. }
  split_and!; [done|done| | |].
  - rewrite Heq. split; [by intros [= ->]|by intros ->].
  - rewrite Heq. split; [by intros [= ->]|by intros ->].
  - rewrite dict_eq_spec. unfold same_bindings.
    split; intros H k; specialize (H k);
      rewrite !merge_frames_lookup, !lookup_empty in *;
      by destruct (first_binding k (reverse fa)),
                  (first_binding k (reverse fb)).
Qed.

Lemma eq_iff_flatten_eq_witness :
  ∃ flatA flatB,
    flatten 0 sample_two = Ok flatA ∧ flatten 2 sample_two = Ok flatB ∧
    (__eq__ 0 (OInst 2) sample_two = Ok true ↔ dict_eq flatA flatB = true) ∧
    (__eq__ 0 (OInst 2) sample_two = Ok false ↔ dict_eq flatA flatB = false) ∧
    (dict_eq flatA flatB = true ↔
       ∀ k, match first_binding k
                    (reverse [builtins; {[ "a" := VInt 1 ]};
                              {[ "a" := VInt 2; "b" := VInt 3 ]}]),
                  first_binding k
                    (reverse [builtins; {[ "a" := VInt 2; "b" := VInt 3 ]}]) with
            | Some x, Some y => py_eq x y = true
            | None, None => True
            | _, _ => False
            end).
Proof.
  apply (eq_iff_flatten_eq sample_two 0 2
           (Instance ContextC [1; 2; 3]
              (Some (ContextAttrs true None None None 1)))
           (Instance ContextC [5; 6]
              (Some (ContextAttrs true None None None 3))));
    vm_compute; reflexivity.
Defined.

(** The two sample contexts differ in their frames and compare equal. *)
Example eq_sample_two : __eq__ 0 (OInst 2) sample_two = Ok true.
Proof. vm_compute. reflexivity. Qed.

(** ** Scoped mutation *)

Lemma find_in_ext w w' k ds :
  (∀ l, l ∈ ds → dict_heap w' !! l = dict_heap w !! l) →
  find_in w' k ds = find_in w k ds.
Proof.
  induction ds as [|l ds IH]; intros Hext; [done|]. simpl.
  unfold load_dict. rewrite (Hext l) by apply list_elem_of_here.
  destruct (dict_heap w !! l) as [d|]; [|done]. simpl.
  destruct (items d !! k); [done|].
  apply IH. intros l' Hl'. apply Hext. by apply list_elem_of_further.
Qed.

(** What a lookup through [c] depends on: the instance [c] and the dict
    objects in its frame list. *)
Lemma __getitem___ext w w' c k inst :
  inst_heap w !! c = Some inst →
  inst_heap w' !! c = Some inst →
  (∀ l, l ∈ dicts inst → dict_heap w' !! l = dict_heap w !! l) →
  __getitem__ c k w' = __getitem__ c k w.
Proof.
  intros Hc Hc' Hext.
  unfold __getitem__, class_of, load_inst. rewrite Hc, Hc'. simpl.
  destruct (cls inst); simpl.
  3: unfold RenderContext__getitem__, top_frame, load_inst, load_dict;
     rewrite Hc, Hc'; simpl;
     destruct (last (dicts inst)) as [t|] eqn:Ht; simpl; [|done];
     rewrite (Hext t); [done|];
     apply last_Some in Ht as [l' ->]; apply elem_of_app; right;
     apply list_elem_of_here.
  all: unfold BaseContext__getitem__, load_inst; rewrite Hc, Hc'; simpl.
  all: rewrite (find_in_ext w w'); [done|].
  all: intros l Hl; apply Hext; by apply elem_of_reverse.
Qed.

Lemma set_then_pop w c inst lower t d k v :
  inst_heap w !! c = Some inst →
  dicts inst = lower ++ [t] →
  lower ≠ [] →
  dict_heap w !! t = Some d →
  (__setitem__ c k v ;;; pop c) w =
  (Ok t, World (<[t := set_items d (<[k := v]> (items d))]> (dict_heap w))
               (<[c := set_dicts inst lower]> (inst_heap w))).
Proof.
  intros Hc Hd Hne Ht. unfold_methods. simpl. rewrite Hc. simpl.
  rewrite Hd, last_snoc. simpl. rewrite Ht. simpl. rewrite Hc. simpl.
  rewrite Hd, last_snoc, removelast_last.
  case_bool_decide as Hlen; [|done].
  rewrite length_app in Hlen. simpl in Hlen.
  destruct lower; [done|]. simpl in Hlen. lia.
Qed.

(** C4, as the code has it. On a stack of at least two frames whose top
    frame object does not also occur lower in the stack, [set] followed
    by [pop] succeeds, writes into the top frame object only, removes
    only the top entry, and afterwards every lookup gives what it gave
    before that frame was pushed: the value bound below, or [KeyError]. *)
Theorem set_pop_restores_lookup (w : world) (c : loc) (inst : instance)
    (lower : list loc) (t : loc) (d : dict_obj) (k : string) (v : value) :
  inst_heap w !! c = Some inst →
  dicts inst = lower ++ [t] →
  lower ≠ [] →
  dict_heap w !! t = Some d →
  t ∉ lower →
  ∃ w',
    (__setitem__ c k v ;;; pop c) w = (Ok t, w') ∧
    (∀ l, l ≠ t → dict_heap w' !! l = dict_heap w !! l) ∧
    (∃ inst', inst_heap w' !! c = Some inst' ∧ dicts inst' = lower) ∧
    ∀ k', __getitem__ c k' w' = __getitem__ c k' (drop_top w c).
Proof.
  intros Hc Hd Hne Ht Hfresh. eexists. split; [by eapply set_then_pop|].
  split_and!.
  - intros l Hl. simpl. by rewrite lookup_insert_ne.
  - eexists. simpl. rewrite lookup_insert_eq. done.
  - intros k'. unfold drop_top. rewrite Hc, Hd, removelast_last.
    apply __getitem___ext with (inst := set_dicts inst lower); simpl.
    + by rewrite lookup_insert_eq.
    + by rewrite lookup_insert_eq.
    + intros l Hl. rewrite lookup_insert_ne; [done|]. by intros ->.
Qed.

Lemma set_pop_restores_lookup_witness :
  ∃ w',
    (__setitem__ 0 "a" (VInt 9) ;;; pop 0) sample_pushed = (Ok 3, w') ∧
    (∀ l, l ≠ 3 → dict_heap w' !! l = dict_heap sample_pushed !! l) ∧
    (∃ inst', inst_heap w' !! 0 = Some inst' ∧ dicts inst' = [1; 2]) ∧
    ∀ k', __getitem__ 0 k' w' = __getitem__ 0 k' (drop_top sample_pushed 0).
Proof.
  apply (set_pop_restores_lookup sample_pushed 0
           (Instance ContextC [1; 2; 3]
              (Some (ContextAttrs true None None None 1)))
           [1; 2] 3
           (DictObj {[ "a" := VInt 2; "b" := VInt 3 ]} (Some 0))).
  - vm_compute. reflexivity.
  - reflexivity.
  - discriminate.
  - vm_compute. reflexivity.
  - rewrite !not_elem_of_cons. split_and!; [lia|lia|apply not_elem_of_nil].
Defined.

(** C4 as stated fails when the top frame object also sits lower in the
    stack: after [c.update(d); c.update(d)], the assignment through the
    top entry is still seen once that entry is popped, although the key
    was bound nowhere before. *)
Lemma set_pop_shared_frame_counterexample :
  (∃ inst, inst_heap sample_alias !! 0 = Some inst ∧ dicts inst = [1; 2; 2]) ∧
  __getitem__ 0 "x" (drop_top sample_alias 0) = Raise (KeyError "x") ∧
  fst ((__setitem__ 0 "x" (VInt 1) ;;; pop 0) sample_alias) = Ok 2 ∧
  __getitem__ 0 "x"
    (snd ((__setitem__ 0 "x" (VInt 1) ;;; pop 0) sample_alias))
  = Ok (VInt 1).
Proof.
  split_and!.
  - eexists. split; vm_compute; reflexivity.
  - vm_compute. reflexivity.
  - vm_compute. reflexivity.
  - vm_compute. reflexivity.
Qed.

(** The frame that [push] creates is a new object, so the case the spec
    singles out holds on every stack whose frames are allocated: push,
    set, pop leaves every lookup as it was before the push. *)
Lemma push_set_pop_restores_lookup w c inst kwargs k v :
  kwargs !! "self" = None → kwargs !! "context" = None →
  inst_heap w !! c = Some inst →
  dicts inst ≠ [] →
  (∀ l, l ∈ dicts inst → is_Some (dict_heap w !! l)) →
  ∃ t w',
    (push c None kwargs ;;; __setitem__ c k v ;;; pop c) w = (Ok t, w') ∧
    ∀ k', __getitem__ c k' w' = __getitem__ c k' w.
Proof.
  intros Hks Hkc Hc Hne Hall.
  set (t := fresh (dom (dict_heap w))).
  assert (t ∉ dicts inst) as Hfresh.
  { intros Hin. apply Hall in Hin. apply elem_of_dom in Hin.
    by apply is_fresh in Hin. }
  set (w1 := World (<[t := DictObj (kwargs ∪ ∅) (Some c)]>
                      (<[t := DictObj (kwargs ∪ ∅) None]> (dict_heap w)))
                   (<[c := set_dicts inst (dicts inst ++ [t])]> (inst_heap w))).
  assert (push c None kwargs w = (Ok t, w1)) as Hpush.
  { rewrite push_body, keywords_accepted by done.
    unfold_methods. simpl. rewrite Hc. done. }
  pose proof (set_then_pop w1 c (set_dicts inst (dicts inst ++ [t]))
                (dicts inst) t (DictObj (kwargs ∪ ∅) (Some c)) k v) as Hsp.
  exists t. eexists. split.
  - unfold bind at 1. rewrite Hpush. apply Hsp; simpl; try done.
    + by rewrite lookup_insert_eq.
    + by rewrite lookup_insert_eq.
  - intros k'. apply __getitem___ext with (inst := inst); simpl.
    + done.
    + rewrite lookup_insert_eq. by destruct inst.
    + intros l Hl. rewrite !lookup_insert_ne; [done|..]; by intros ->.
Qed.

(** ** Merging a mapping *)

Lemma Context_update_dict w c inst l :
  inst_heap w !! c = Some inst →
  Context_update c (PDict l) w =
  (Ok (PDict l),
   World (dict_heap w)
     (<[c := set_dicts inst (dicts inst ++ [l])]> (inst_heap w))).
Proof.
  intros Hc. unfold Context_update, bind, lift, load_inst, store_inst, ret.
  simpl. by rewrite Hc.
Qed.

(** C5. On a [Context] (or [RequestContext]) instance, [update] raises
    [TypeError] and leaves the store as it was when the argument has no
    [__getitem__]; otherwise it returns its argument, the frame list grows
    by the argument's own location, and no dict object is created or
    changed. *)
Theorem update_rejects_or_shares (w : world) (c : loc) (inst : instance)
    (o : pyobj) :
  inst_heap w !! c = Some inst →
  cls inst = ContextC ∨ cls inst = RequestContextC →
  (has_getitem o = false → update c o w = (Raise TypeError, w)) ∧
  (has_getitem o = true →
   ∃ l w',
     o = PDict l ∧ update c o w = (Ok o, w') ∧
     dict_heap w' = dict_heap w ∧
     inst_heap w' = <[c := set_dicts inst (dicts inst ++ [l])]> (inst_heap w)).
Proof.
  intros Hc Hcls. split; intros Hg.
  - destruct o as [v|l]; [|done].
    unfold_methods. simpl. rewrite Hc. simpl.
    by destruct Hcls as [-> | ->].
  - destruct o as [v|l]; [done|].
    exists l, (World (dict_heap w)
                 (<[c := set_dicts inst (dicts inst ++ [l])]> (inst_heap w))).
    split_and!; [done| |done|done].
    unfold update, class_of, bind, lift, load_inst, obind. rewrite Hc.
    destruct Hcls as [Hk | Hk]; rewrite Hk; by apply Context_update_dict.
Qed.

Lemma update_rejects_or_shares_witness :
  (has_getitem (PDict 1) = false →
   update 0 (PDict 1) sample_fresh = (Raise TypeError, sample_fresh)) ∧
  (has_getitem (PDict 1) = true →
   ∃ l w',
     PDict 1 = PDict l ∧ update 0 (PDict 1) sample_fresh = (Ok (PDict 1), w') ∧
     dict_heap w' = dict_heap sample_fresh ∧
     inst_heap w' =
       <[0 := set_dicts (Instance ContextC [1]
                           (Some (ContextAttrs true None None None 1)))
                        ([1] ++ [l])]> (inst_heap sample_fresh)).
Proof.
  apply (update_rejects_or_shares sample_fresh 0
           (Instance ContextC [1] (Some (ContextAttrs true None None None 1)))).
  - vm_compute. reflexivity.
  - left. reflexivity.
Defined.

(** A value that is not a mapping is refused on the sample context. *)
Example update_int_sample :
  update 0 (PVal (VInt 5)) sample_fresh = (Raise TypeError, sample_fresh).
Proof. reflexivity. Qed.

(** ** The render context reads its top frame only *)

(** C6. On a [RenderContext] whose top frame does not bind [k], [c[k]]
    raises [KeyError] and [k in c] is false, whatever the frames below
    hold; when a lower frame binds [k], the lookup of [BaseContext] on the
    same stack finds it. *)
Theorem render_context_top_only (w : world) (c : loc) (inst : instance)
    (lower : list loc) (t : loc) (d : dict_obj) (fs : list frame)
    (k : string) :
  inst_heap w !! c = Some inst →
  cls inst = RenderContextC →
  dicts inst = lower ++ [t] →
  dict_heap w !! t = Some d →
  items d !! k = None →
  frames_of w lower = Some fs →
  __getitem__ c k w = Raise (KeyError k) ∧
  __contains__ c k w = Ok false ∧
  get c k VNone w = Ok VNone ∧
  ∀ v, first_binding k (reverse fs) = Some v →
       BaseContext__getitem__ c k w = Ok v ∧
       BaseContext_has_key c k w = Ok true.
Proof.
  intros Hc Hcls Hd Ht Hk Hfs.
  assert (top_frame c w = Ok t) as Htop.
  { unfold top_frame, load_inst. rewrite Hc. simpl. by rewrite Hd, last_snoc. }
  assert (frames_of w (dicts inst) = Some (fs ++ [items d])) as Hall.
  { rewrite Hd, frames_of_app, Hfs. simpl. by rewrite Ht. }
  split_and!.
  - unfold __getitem__, class_of, load_inst. rewrite Hc. simpl. rewrite Hcls.
    unfold RenderContext__getitem__, load_dict. rewrite Htop. simpl.
    rewrite Ht. simpl. by rewrite Hk.
  - unfold __contains__, has_key, class_of, load_inst. rewrite Hc. simpl.
    rewrite Hcls. unfold RenderContext_has_key, load_dict. rewrite Htop. simpl.
    rewrite Ht. simpl. by rewrite Hk.
  - unfold get, class_of, load_inst. rewrite Hc. simpl. rewrite Hcls.
    unfold RenderContext_get, load_dict. rewrite Htop. simpl.
    rewrite Ht. simpl. by rewrite Hk.
  - intros v Hv. split.
    + rewrite (BaseContext__getitem___frames _ _ _ _ _ Hc Hall).
      rewrite reverse_snoc. simpl. by rewrite Hk, Hv.
    + unfold BaseContext_has_key, load_inst. rewrite Hc. simpl.
      rewrite (find_in_frames _ _ _ _ Hall). simpl. f_equal.
      apply bool_decide_eq_true.
      assert (is_Some (first_binding k (reverse (reverse (fs ++ [items d])))))
        as Hsome; [|by rewrite reverse_involutive in Hsome].
      rewrite reverse_snoc.
      destruct (first_binding_reverse_Some k (items d :: reverse fs))
        as (i & f & x & _ & _ & _ & Hfb); [|by rewrite Hfb].
      clear -Hv. induction (reverse fs) as [|g gs IH]; [done|].
      simpl in Hv. destruct (g !! k) as [y|] eqn:Hg.
      * exists g. split; [|by rewrite Hg].
        apply list_elem_of_further, list_elem_of_here.
      * destruct (IH Hv) as (f & Hin & Hf). exists f. split; [|done].
        apply elem_of_cons in Hin as [-> | Hin].
        -- apply list_elem_of_here.
        -- by do 2 apply list_elem_of_further.
Qed.

Lemma render_context_top_only_witness :
  __getitem__ 0 "x" sample_render = Raise (KeyError "x") ∧
  __contains__ 0 "x" sample_render = Ok false ∧
  get 0 "x" VNone sample_render = Ok VNone ∧
  ∀ v, first_binding "x" (reverse [builtins; {[ "x" := VInt 1 ]}]) = Some v →
       BaseContext__getitem__ 0 "x" sample_render = Ok v ∧
       BaseContext_has_key 0 "x" sample_render = Ok true.
Proof.
  apply (render_context_top_only sample_render 0
           (Instance RenderContextC [0; 1; 2] None) [0; 1] 2
           (DictObj ∅ (Some 0)));
    vm_compute; reflexivity.
Defined.

(** On the sample, the binding of the frame below is there for the
    inherited lookup and hidden from the render context's own. *)
Example render_context_sample :
  BaseContext__getitem__ 0 "x" sample_render = Ok (VInt 1) ∧
  __getitem__ 0 "x" sample_render = Raise (KeyError "x").
Proof. split; vm_compute; reflexivity. Qed.

(** ** Comparison with other objects *)

(** C10. Compared with anything that is not a context instance, a stack
    is unequal: [__eq__] returns [False], raises nothing and reads
    nothing, also when the other object is a dict with the very bindings
    the stack flattens to. *)
Theorem eq_non_context_false (w : world) (c : loc) (x : pyobj) :
  __eq__ c (OObj x) w = Ok false.
Proof. reflexivity. Qed.

(** The case of a dict equal to the flattened stack, on the sample. *)
Example eq_flattened_dict_sample :
  ∃ d, dict_heap sample_fresh !! 1 = Some d ∧
       flatten 0 sample_fresh = Ok (items d) ∧
       __eq__ 0 (OObj (PDict 1)) sample_fresh = Ok false.
Proof.
  exists (DictObj builtins None). split_and!; vm_compute; reflexivity.
Qed.

(** ** Copies *)


Lemma BaseContext__copy___result w c inst :
  inst_heap w !! c = Some inst →
  BaseContext__copy__ c w =
  (Ok (fresh (dom (inst_heap w))),
   World (dict_heap w) (<[fresh (dom (inst_heap w)) := inst]> (inst_heap w))).
Proof.
  intros Hc. unfold BaseContext__copy__. unfold_methods. simpl.
  rewrite Hc. simpl. rewrite insert_insert_eq. by destruct inst.
Qed.

(** The store after [copy] of a [Context]: two new instances, no new
    dict. *)
Lemma Context__copy___result w C inst a rinst :
  inst_heap w !! C = Some inst →
  attrs inst = Some a →
  inst_heap w !! render_context a = Some rinst →
  let c2 := fresh (dom (inst_heap w)) in
  let ih2 := <[c2 := inst]> (inst_heap w) in
  let rc2 := fresh (dom ih2) in
  Context__copy__ C w =
  (Ok c2,
   World (dict_heap w)
     (<[c2 := Instance (cls inst) (dicts inst)
                (Some (ContextAttrs (autoescape a) (current_app a)
                         (use_l10n a) (use_tz a) rc2))]>
        (<[rc2 := rinst]> ih2))).
Proof.
  intros HC Ha Hrc c2 ih2 rc2.
  assert (c2 ≠ C) as HCc2
    by (apply not_eq_sym, fresh_not_allocated; by eexists).
  assert (c2 ≠ render_context a) as Hrcc2
    by (apply not_eq_sym, fresh_not_allocated; by eexists).
  assert (rc2 ≠ c2) as Hc2rc2.
  { apply not_eq_sym, fresh_not_allocated. unfold ih2.
    rewrite lookup_insert_eq. by eexists. }
  unfold Context__copy__, bind.
  rewrite (BaseContext__copy___result w C inst HC).
  unfold lift, load_inst. simpl. fold c2. fold ih2.
  assert (ih2 !! C = Some inst) as -> by (unfold ih2; by rewrite lookup_insert_ne).
  rewrite Ha.
  rewrite (BaseContext__copy___result (World (dict_heap w) ih2)
             (render_context a) rinst)
    by (simpl; unfold ih2; by rewrite lookup_insert_ne).
  simpl. fold rc2.
  assert ((<[rc2 := rinst]> ih2) !! c2 = Some inst) as ->.
  { rewrite lookup_insert_ne by done. unfold ih2. by rewrite lookup_insert_eq. }
  unfold store_inst, ret. simpl. reflexivity.
Qed.

(** A binding of the top frame is what any lookup returns. *)
Lemma __getitem___top w c inst lower t d k v :
  inst_heap w !! c = Some inst →
  dicts inst = lower ++ [t] →
  dict_heap w !! t = Some d →
  items d !! k = Some v →
  __getitem__ c k w = Ok v.
Proof.
  intros Hc Hd Ht Hk. unfold __getitem__, class_of, load_inst.
  rewrite Hc. simpl.
  assert (BaseContext__getitem__ c k w = Ok v) as HB.
  { unfold BaseContext__getitem__, load_inst. rewrite Hc. simpl.
    rewrite Hd, reverse_snoc. simpl. unfold load_dict. rewrite Ht. simpl.
    by rewrite Hk. }
  assert (RenderContext__getitem__ c k w = Ok v) as HR.
  { unfold RenderContext__getitem__, top_frame, load_inst, load_dict.
    rewrite Hc. simpl. rewrite Hd, last_snoc. simpl. rewrite Ht. simpl.
    by rewrite Hk. }
  by destruct (cls inst).
Qed.

Lemma __setitem___top w c inst lower t d k v :
  inst_heap w !! c = Some inst →
  dicts inst = lower ++ [t] →
  dict_heap w !! t = Some d →
  __setitem__ c k v w =
  (Ok tt, World (<[t := set_items d (<[k := v]> (items d))]> (dict_heap w))
                (inst_heap w)).
Proof.
  intros Hc Hd Ht. unfold_methods. simpl. rewrite Hc. simpl.
  rewrite Hd, last_snoc. simpl. by rewrite Ht.
Qed.



(** On the sample: the copy is location [2], its render context location
    [3]; a frame pushed on the copy is not seen through the original, an
    assignment through the copy is. *)
Example copy_sample :
  fst (copy 0 sample_pushed) = Ok 2 ∧
  fst ((c2 <- copy 0 ;;
        push c2 None {[ "z" := VInt 9 ]} ;;;
        lift (__contains__ 0 "z")) sample_pushed) = Ok false ∧
  fst ((c2 <- copy 0 ;;
        __setitem__ c2 "z" (VInt 9) ;;;
        lift (__contains__ 0 "z")) sample_pushed) = Ok true.
Proof. split_and!; vm_compute; reflexivity. Qed.

(** ** The handle returned by [push] *)

Lemma push_result w c inst kwargs :
  kwargs !! "self" = None → kwargs !! "context" = None →
  inst_heap w !! c = Some inst →
  let h := fresh (dom (dict_heap w)) in
  push c None kwargs w =
  (Ok h,
   World (<[h := DictObj (kwargs ∪ ∅) (Some c)]> (dict_heap w))
         (<[c := set_dicts inst (dicts inst ++ [h])]> (inst_heap w))).
Proof.
  intros Hks Hkc Hc h. rewrite push_body, keywords_accepted by done.
  unfold_methods. simpl. rewrite Hc. simpl.
  fold h. by rewrite insert_insert_eq.
Qed.

(** A keyword named [self] or [context] makes [push] raise [TypeError]
    before anything is built. *)
Lemma push_keyword_rejected w c args kwargs :
  is_Some (kwargs !! "self") ∨ is_Some (kwargs !! "context") →
  push c args kwargs w = (Raise TypeError, w).
Proof.
  intros H. rewrite push_body.
  assert (has_keyword kwargs "self" || has_keyword kwargs "context" = true)
    as ->; [|done].
  apply orb_true_iff. unfold has_keyword. rewrite !bool_decide_eq_true.
  done.
Qed.

Lemma ContextDict__exit___pop w h d c exc :
  dict_heap w !! h = Some d →
  context d = Some c →
  ContextDict__exit__ h exc w = (pop c ;;; ret tt) w.
Proof.
  intros Hh Hctx. unfold ContextDict__exit__, bind at 1, lift, load_dict.
  by rewrite Hh, Hctx.
Qed.

Lemma pop_result w c inst lower t :
  inst_heap w !! c = Some inst →
  dicts inst = lower ++ [t] →
  lower ≠ [] →
  pop c w =
  (Ok t, World (dict_heap w) (<[c := set_dicts inst lower]> (inst_heap w))).
Proof.
  intros Hc Hd Hne. unfold_methods. simpl. rewrite Hc. simpl.
  rewrite Hd, last_snoc, removelast_last.
  case_bool_decide as Hlen; [|done].
  rewrite length_app in Hlen. simpl in Hlen.
  destruct lower; [done|]. simpl in Hlen. lia.
Qed.

(** C9, as the code has it. With keywords that [push] accepts (none is
    named [self] or [context]; otherwise the call raises [TypeError] and
    there is no handle), the handle [push] returns is the new frame
    itself. Releasing it, with or without exception details, calls [pop]
    once: right after the [push] this puts the frame list back as it was.
    The handle keeps no record of the release. A second release calls
    [pop] again: it removes the frame that was on top before the [push],
    or raises [ContextPopException] when that frame is the only one. *)
Theorem handle_release_pops_once_per_call (w : world) (c : loc)
    (inst : instance) (kwargs : frame) (exc exc' : option exn) :
  kwargs !! "self" = None → kwargs !! "context" = None →
  inst_heap w !! c = Some inst →
  dicts inst ≠ [] →
  (∀ args kwargs',
     is_Some (kwargs' !! "self") ∨ is_Some (kwargs' !! "context") →
     push c args kwargs' w = (Raise TypeError, w)) ∧
  ∃ h w1 w2,
    push c None kwargs w = (Ok h, w1) ∧
    ContextDict__enter__ h w1 = (Ok h, w1) ∧
    ContextDict__exit__ h exc w1 = (Ok tt, w2) ∧
    inst_heap w2 !! c = Some inst ∧
    (∀ b, dicts inst = [b] →
       ContextDict__exit__ h exc' w2 = (Raise ContextPopException, w2)) ∧
    (∀ lower t, dicts inst = lower ++ [t] → lower ≠ [] →
       ∃ w3 inst3,
         ContextDict__exit__ h exc' w2 = (Ok tt, w3) ∧
         inst_heap w3 !! c = Some inst3 ∧ dicts inst3 = lower).
Proof.
  intros Hks Hkc Hc Hne.
  split; [intros args kwargs' Hk; by apply push_keyword_rejected|].
  set (h := fresh (dom (dict_heap w))).
  set (dh := <[h := DictObj (kwargs ∪ ∅) (Some c)]> (dict_heap w)).
  set (w1 := World dh (<[c := set_dicts inst (dicts inst ++ [h])]>
                         (inst_heap w))).
  set (w2 := World dh (<[c := inst]> (inst_heap w))).
  assert (dh !! h = Some (DictObj (kwargs ∪ ∅) (Some c))) as Hh
    by apply lookup_insert_eq.
  exists h, w1, w2. split_and!.
  - by apply push_result.
  - done.
  - rewrite (ContextDict__exit___pop w1 h _ c exc Hh eq_refl).
    unfold bind.
    rewrite (pop_result w1 c (set_dicts inst (dicts inst ++ [h]))
               (dicts inst) h); [|by apply lookup_insert_eq|done|done].
    unfold ret, w2. simpl. rewrite insert_insert_eq. by destruct inst.
  - apply lookup_insert_eq.
  - intros b Hb.
    rewrite (ContextDict__exit___pop w2 h _ c exc' Hh eq_refl).
    unfold bind. rewrite (pop_floor w2 c inst b); [done| |done].
    apply lookup_insert_eq.
  - intros lower t Hd Hlower.
    rewrite (ContextDict__exit___pop w2 h _ c exc' Hh eq_refl).
    unfold bind.
    rewrite (pop_result w2 c inst lower t); [|by apply lookup_insert_eq|done..].
    eexists _, _. split_and!; [done| |]; simpl.
    + apply lookup_insert_eq.
    + done.
Qed.

Lemma handle_release_pops_once_per_call_witness :
  push 0 None {[ "context" := VInt 1 ]} sample_pushed
    = (Raise TypeError, sample_pushed) ∧
  ∃ h w1 w2,
    push 0 None {[ "x" := VInt 1 ]} sample_pushed = (Ok h, w1) ∧
    ContextDict__exit__ h (Some TypeError) w1 = (Ok tt, w2) ∧
    inst_heap w2 !! 0 = inst_heap sample_pushed !! 0 ∧
    ∃ w3 inst3,
      ContextDict__exit__ h None w2 = (Ok tt, w3) ∧
      inst_heap w3 !! 0 = Some inst3 ∧ dicts inst3 = [1; 2].
Proof.
  destruct (handle_release_pops_once_per_call sample_pushed 0
              (Instance ContextC [1; 2; 3]
                 (Some (ContextAttrs true None None None 1)))
              {[ "x" := VInt 1 ]} (Some TypeError) None)
    as (Hrej & h & w1 & w2 & Hpush & _ & Hexit & Hinst & _ & Hagain).
  - reflexivity.
  - reflexivity.
  - vm_compute. reflexivity.
  - discriminate.
  - split.
    + apply Hrej. right. vm_compute. eexists. reflexivity.
    + exists h, w1, w2. split_and!; [done|done| |].
      * etrans; [exact Hinst|]. symmetry. vm_compute. reflexivity.
      * apply (Hagain [1; 2] 3); [reflexivity|discriminate].
Defined.

(** C9 as stated fails: nothing stops a second release of the same
    handle, and it pops a frame the handle was never bound to. On the
    sample the stack holds frames [1; 2; 3] before the [push] and [1; 2]
    after two releases. *)
Lemma handle_released_twice_pops_twice :
  (∃ inst, inst_heap sample_pushed !! 0 = Some inst ∧ dicts inst = [1; 2; 3]) ∧
  fst ((h <- push 0 None ∅ ;;
        ContextDict__exit__ h None ;;;
        ContextDict__exit__ h None) sample_pushed) = Ok tt ∧
  ∃ inst', inst_heap (snd ((h <- push 0 None ∅ ;;
                            ContextDict__exit__ h None ;;;
                            ContextDict__exit__ h None) sample_pushed)) !! 0
           = Some inst' ∧ dicts inst' = [1; 2].
Proof.
  split_and!.
  - eexists. split; vm_compute; reflexivity.
  - vm_compute. reflexivity.
  - eexists. split; vm_compute; reflexivity.
Qed.

(** ** Construction of a [RequestContext] *)

Lemma new_RenderContext_result w :
  let rc := fresh (dom (inst_heap w)) in
  let b := fresh (dom (dict_heap w)) in
  new_RenderContext w =
  (Ok rc, World (<[b := DictObj builtins None]> (dict_heap w))
                (<[rc := Instance RenderContextC [b] None]> (inst_heap w))).
Proof.
  intros rc b. unfold new_RenderContext, BaseContext__init__, _reset_dicts.
  unfold_methods. simpl. fold rc. rewrite lookup_insert_eq. simpl.
  by rewrite insert_insert_eq.
Qed.

Lemma _reset_dicts_result w self inst value :
  inst_heap w !! self = Some inst →
  let b := fresh (dom (dict_heap w)) in
  _reset_dicts self value w =
  (Ok tt,
   World (<[b := DictObj builtins None]> (dict_heap w))
     (<[self := set_dicts inst
                  ([b] ++ match value with Some v => [v] | None => [] end)]>
        (inst_heap w))).
Proof.
  intros Hs b. unfold _reset_dicts, bind, lift, load_inst, alloc_dict,
    store_inst. simpl. by rewrite Hs.
Qed.

Lemma Context__init___result w self inst dict_ ae app l10n tz :
  inst_heap w !! self = Some inst →
  let rc := fresh (dom (inst_heap w)) in
  let b0 := fresh (dom (dict_heap w)) in
  let dh1 := <[b0 := DictObj builtins None]> (dict_heap w) in
  let b := fresh (dom dh1) in
  Context__init__ self dict_ ae app l10n tz w =
  (Ok tt,
   World (<[b := DictObj builtins None]> dh1)
     (<[self := Instance (cls inst)
                  ([b] ++ match dict_ with Some v => [v] | None => [] end)
                  (Some (ContextAttrs ae app l10n tz rc))]>
        (<[rc := Instance RenderContextC [b0] None]> (inst_heap w)))).
Proof.
  intros Hs rc b0 dh1 b.
  assert (rc ≠ self) as Hne
    by (apply not_eq_sym, fresh_not_allocated; by eexists).
  unfold Context__init__, bind. rewrite new_RenderContext_result.
  fold rc. fold b0. fold dh1. unfold lift, load_inst, store_inst. simpl.
  rewrite lookup_insert_ne by done. rewrite Hs.
  unfold BaseContext__init__.
  rewrite (_reset_dicts_result _ self
             (Instance (cls inst) (dicts inst)
                (Some (ContextAttrs ae app l10n tz rc))))
    by (simpl; apply lookup_insert_eq).
  simpl. fold b. by rewrite insert_insert_eq.
Qed.

Section request_context.
Context {request : Type}.
Variable TEMPLATE_CONTEXT_PROCESSORS : list string.
Variable import_string : string → outcome (processor request).

Lemma import_all_app xs ys :
  import_all import_string (xs ++ ys) =
  obind (import_all import_string xs) (λ a,
  obind (import_all import_string ys) (λ b, Ok (a ++ b))).
Proof.
  induction xs as [|x xs IH]; simpl.
  - by destruct (import_all import_string ys).
  - destruct (import_string x); simpl; [|done..]. rewrite IH.
    destruct (import_all import_string xs); simpl; [|done..].
    by destruct (import_all import_string ys).
Qed.

Lemma run_processors_result (req : request) ps : ∀ w u d outs,
  dict_heap w !! u = Some d →
  call_all req ps = Ok outs →
  run_processors req u ps w =
  (Ok tt,
   World (<[u := set_items d (merge_frames (items d) outs)]> (dict_heap w))
         (inst_heap w)).
Proof.
  induction ps as [|p ps IH]; intros w u d outs Hu Hcall; simpl in Hcall.
  - injection Hcall as <-. simpl. unfold ret, set_items, merge_frames.
    simpl. rewrite insert_id; [by destruct w|by destruct d].
  - destruct (p req) as [r| |] eqn:Hp; simpl in Hcall; [|done..].
    destruct (call_all req ps) as [rs| |] eqn:Hps; simpl in Hcall;
      [|done..].
    injection Hcall as <-. simpl.
    unfold bind at 1. rewrite Hp.
    unfold bind at 1, lift, load_dict. rewrite Hu.
    unfold bind at 1, store_dict.
    rewrite (IH _ u (set_items d (r ∪ items d)) rs);
      [|by apply lookup_insert_eq|done].
    simpl. by rewrite insert_insert_eq.
Qed.

(** C8. Every construction of a [RequestContext] in which
    [get_standard_processors] returns a list [std] and no processor
    raises runs [std] and then the caller's processors. [std] is the
    remembered list when there is one, which then stays; on first use it
    is the imported built-in processors followed by the imported
    configured ones, and is remembered from then on. The mappings the
    processors return are folded in call order into one new dict, where a
    later mapping replaces the bindings of an earlier one, and that dict
    becomes the single frame on top of the builtins (and of [dict_], when
    given). *)
Theorem request_context_processor_order (w : world) (req : request)
    (dict_ : option loc) (processors : option (list (processor request)))
    (current_app : option string) (use_l10n use_tz : option bool)
    (cache cache' : option (list (processor request)))
    (std : list (processor request)) (outs : list frame) :
  get_standard_processors TEMPLATE_CONTEXT_PROCESSORS import_string cache
    = (Ok std, cache') →
  call_all req (std ++ default [] processors) = Ok outs →
  match cache with
  | Some ps => std = ps ∧ cache' = Some ps
  | None =>
      ∃ bs cs,
        import_all import_string _builtin_context_processors = Ok bs ∧
        import_all import_string TEMPLATE_CONTEXT_PROCESSORS = Ok cs ∧
        std = bs ++ cs ∧ cache' = Some (bs ++ cs)
  end ∧
  ∃ self w' inst b u,
    new_RequestContext TEMPLATE_CONTEXT_PROCESSORS import_string req dict_
      processors current_app use_l10n use_tz cache w
    = ((Ok self, w'), cache') ∧
    inst_heap w !! self = None ∧
    inst_heap w' !! self = Some inst ∧
    cls inst = RequestContextC ∧
    dicts inst =
      [b] ++ match dict_ with Some v => [v] | None => [] end ++ [u] ∧
    dict_heap w !! b = None ∧ dict_heap w !! u = None ∧
    dict_heap w' !! b = Some (DictObj builtins None) ∧
    dict_heap w' !! u = Some (DictObj (merge_frames ∅ outs) None) ∧
    ∀ k, merge_frames ∅ outs !! k = first_binding k (reverse outs).
Proof.
  intros Hstd Hcall. split.
  { unfold get_standard_processors in Hstd.
    destruct cache as [ps|]; [by injection Hstd as <- <-|].
    rewrite import_all_app in Hstd.
    destruct (import_all import_string _builtin_context_processors)
      as [bs| |]; simpl in Hstd; [|done..].
    destruct (import_all import_string TEMPLATE_CONTEXT_PROCESSORS)
      as [cs| |]; simpl in Hstd; [|done..].
    injection Hstd as <- <-. by exists bs, cs. }
  set (self := fresh (dom (inst_heap w))).
  set (I0 := Instance RequestContextC [] None).
  set (w0 := World (dict_heap w) (<[self := I0]> (inst_heap w))).
  set (rc := fresh (dom (inst_heap w0))).
  set (b0 := fresh (dom (dict_heap w0))).
  set (dh1 := <[b0 := DictObj builtins None]> (dict_heap w0)).
  set (b := fresh (dom dh1)).
  set (dh2 := <[b := DictObj builtins None]> dh1).
  set (dopt := match dict_ with Some v => [v] | None => [] end).
  set (I1 := Instance RequestContextC ([b] ++ dopt)
               (Some (ContextAttrs true current_app use_l10n use_tz rc))).
  set (ih1 := <[self := I1]>
                (<[rc := Instance RenderContextC [b0] None]> (inst_heap w0))).
  set (u := fresh (dom dh2)).
  set (w4 := World (<[u := DictObj (merge_frames ∅ outs) None]> dh2)
                   (<[self := set_dicts I1 (dicts I1 ++ [u])]> ih1)).
  assert (dh1 !! b = None) as Hb1 by apply fresh_lookup_None.
  assert (dh2 !! u = None) as Hu2 by apply fresh_lookup_None.
  assert (dict_heap w !! b0 = None) as Hb0 by apply fresh_lookup_None.
  assert (b ≠ b0) as Hbb0.
  { intros E. rewrite E in Hb1. unfold dh1 in Hb1.
    by rewrite lookup_insert_eq in Hb1. }
  assert (u ≠ b) as Hub.
  { intros E. rewrite E in Hu2. unfold dh2 in Hu2.
    by rewrite lookup_insert_eq in Hu2. }
  assert (u ≠ b0) as Hub0.
  { intros E. rewrite E in Hu2. unfold dh2, dh1 in Hu2.
    rewrite lookup_insert_ne in Hu2 by done.
    by rewrite lookup_insert_eq in Hu2. }
  exists self, w4, (set_dicts I1 (dicts I1 ++ [u])), b, u.
  split_and!.
  - unfold new_RequestContext, alloc_inst. fold self. fold I0. fold w0.
    unfold RequestContext__init__.
    rewrite (Context__init___result w0 self I0)
      by (simpl; apply lookup_insert_eq).
    fold rc. fold b0. fold dh1. fold b. fold dh2. simpl cls.
    fold dopt. fold I1. fold ih1.
    unfold alloc_dict. simpl dict_heap. simpl inst_heap. fold u.
    rewrite Hstd.
    unfold bind at 1.
    rewrite (run_processors_result req _ _ u (DictObj ∅ None) outs);
      [|by apply lookup_insert_eq|by rewrite <- Hcall; destruct processors].
    simpl. rewrite insert_insert_eq.
    unfold bind at 1, update, bind at 1, lift, class_of, load_inst.
    simpl. unfold ih1 at 1. rewrite lookup_insert_eq. simpl.
    rewrite (Context_update_dict _ self I1)
      by (simpl; apply lookup_insert_eq).
    done.
  - apply fresh_lookup_None.
  - simpl. apply lookup_insert_eq.
  - done.
  - reflexivity.
  - unfold dh1 in Hb1. simpl in Hb1. by rewrite lookup_insert_ne in Hb1.
  - unfold dh2, dh1 in Hu2. simpl in Hu2.
    by rewrite !lookup_insert_ne in Hu2.
  - simpl. rewrite lookup_insert_ne by done. apply lookup_insert_eq.
  - simpl. apply lookup_insert_eq.
  - intros k. rewrite merge_frames_lookup, lookup_empty.
    by destruct (first_binding k (reverse outs)).
Qed.
End request_context.

Lemma request_context_processor_order_witness :
  (∃ self w' inst b u,
     new_RequestContext ["configured"] sample_import tt None
       (Some [sample_caller]) None None None None empty_world
     = ((Ok self, w'), Some [sample_builtin; sample_configured]) ∧
     inst_heap w' !! self = Some inst ∧
     dicts inst = [b; u] ∧
     dict_heap w' !! b = Some (DictObj builtins None) ∧
     dict_heap w' !! u =
       Some (DictObj {[ "a" := VInt 2; "b" := VInt 3; "c" := VInt 3 ]}
               None)) ∧
  (∃ self w' inst b u,
     new_RequestContext [] sample_import_broken tt None
       (Some [sample_caller]) None None None
       (Some [sample_configured; sample_builtin]) sample_pushed
     = ((Ok self, w'), Some [sample_configured; sample_builtin]) ∧
     inst_heap w' !! self = Some inst ∧
     dicts inst = [b; u] ∧
     dict_heap w' !! b = Some (DictObj builtins None) ∧
     dict_heap w' !! u =
       Some (DictObj {[ "a" := VInt 1; "b" := VInt 3; "c" := VInt 3 ]}
               None)).
Proof.
  split.
  - destruct (request_context_processor_order ["configured"] sample_import
                empty_world tt None (Some [sample_caller]) None None None
                None (Some [sample_builtin; sample_configured])
                [sample_builtin; sample_configured]
                [ {[ "a" := VInt 1 ]}; {[ "a" := VInt 2; "b" := VInt 2 ]};
                  {[ "b" := VInt 3; "c" := VInt 3 ]} ])
      as (_ & self & w' & inst & b & u & Hnew & _ & Hinst & _ & Hd & _ & _
          & Hb & Hu & _).
    + reflexivity.
    + reflexivity.
    + exists self, w', inst, b, u. split_and!; [done..|].
      etrans; [exact Hu|]. vm_compute. reflexivity.
  - destruct (request_context_processor_order [] sample_import_broken
                sample_pushed tt None (Some [sample_caller]) None None None
                (Some [sample_configured; sample_builtin])
                (Some [sample_configured; sample_builtin])
                [sample_configured; sample_builtin]
                [ {[ "a" := VInt 2; "b" := VInt 2 ]}; {[ "a" := VInt 1 ]};
                  {[ "b" := VInt 3; "c" := VInt 3 ]} ])
      as (_ & self & w' & inst & b & u & Hnew & _ & Hinst & _ & Hd & _ & _
          & Hb & Hu & _).
    + reflexivity.
    + reflexivity.
    + exists self, w', inst, b, u. split_and!; [done..|].
      etrans; [exact Hu|]. vm_compute. reflexivity.
Defined.

(** On the sample, the new context resolves [a], [b] and [c] to the
    values of the last processor that returned them. *)
Example request_context_sample :
  let r := new_RequestContext ["configured"] sample_import tt None
             (Some [sample_caller]) None None None None empty_world in
  fst (fst r) = Ok 0 ∧
  __getitem__ 0 "a" (snd (fst r)) = Ok (VInt 2) ∧
  __getitem__ 0 "b" (snd (fst r)) = Ok (VInt 3) ∧
  __getitem__ 0 "c" (snd (fst r)) = Ok (VInt 3) ∧
  __getitem__ 0 "True" (snd (fst r)) = Ok (VBool true).
Proof. split_and!; vm_compute; reflexivity. Qed.

(** * Further properties of the module *)

(** ** [get] and [in] against indexing *)

Lemma find_in_no_raise w k ds e : find_in w k ds ≠ Raise e.
Proof.
  induction ds as [|l ds IH]; simpl; [done|]. unfold load_dict.
  destruct (dict_heap w !! l) as [d|]; simpl; [|done].
  by destruct (items d !! k).
Qed.

Lemma top_frame_raise w c e : top_frame c w = Raise e → e = IndexError.
Proof.
  unfold top_frame, load_inst.
  destruct (inst_heap w !! c) as [inst|]; simpl; [|done].
  destruct (last (dicts inst)); [done|]. by intros [= <-].
Qed.

(** [get] is indexing with the [KeyError] replaced by the default: it
    returns what [c[k]] returns, returns [otherwise] exactly where [c[k]]
    raises [KeyError], and fails otherwise as [c[k]] does. This holds for
    every class, each with its own pair of methods. *)
Theorem get_is_getitem_with_default (w : world) (c : loc) (k : string)
    (otherwise : value) :
  get c k otherwise w =
  match __getitem__ c k w with
  | Ok v => Ok v
  | Raise (KeyError _) => Ok otherwise
  | Raise e => Raise e
  | Wrong => Wrong
  end.
Proof.
  unfold get, __getitem__, class_of, load_inst.
  destruct (inst_heap w !! c) as [inst|] eqn:Hc; [|done]. simpl.
  assert (BaseContext_get c k otherwise w =
          match BaseContext__getitem__ c k w with
          | Ok v => Ok v
          | Raise (KeyError _) => Ok otherwise
          | Raise e => Raise e
          | Wrong => Wrong
          end) as HB.
  { unfold BaseContext_get, BaseContext__getitem__, load_inst. rewrite Hc.
    simpl.
    destruct (find_in w k (reverse (dicts inst))) as [[v|]|e|] eqn:Hf;
      try done.
    by apply find_in_no_raise in Hf. }
  destruct (cls inst); try exact HB.
  unfold RenderContext_get, RenderContext__getitem__.
  destruct (top_frame c w) as [t|e|] eqn:Ht; simpl; [| |done].
  - unfold load_dict. destruct (dict_heap w !! t) as [d|]; simpl; [|done].
    by destruct (items d !! k).
  - by rewrite (top_frame_raise _ _ _ Ht).
Qed.

Lemma first_binding_is_Some k (fs : list frame) :
  is_Some (first_binding k fs) ↔ ∃ f, f ∈ fs ∧ is_Some (f !! k).
Proof.
  induction fs as [|f fs IH]; simpl.
  - split; [by intros [? ?]|]. intros (f & Hf & _). by apply elem_of_nil in Hf.
  - destruct (f !! k) as [v|] eqn:Hfk.
    + split; [|by eauto]. intros _. exists f. split; [apply list_elem_of_here|].
      by rewrite Hfk.
    + rewrite IH. split.
      * intros (g & Hg & Hk). exists g. split; [|done].
        by apply list_elem_of_further.
      * intros (g & Hg & Hk). apply elem_of_cons in Hg as [-> | Hg].
        -- rewrite Hfk in Hk. by destruct Hk.
        -- by exists g.
Qed.

Lemma first_binding_reverse_is_Some k (fs : list frame) :
  is_Some (first_binding k (reverse fs)) ↔ is_Some (first_binding k fs).
Proof.
  rewrite !first_binding_is_Some.
  split; intros (f & Hf & Hk); exists f; split; try done;
    by apply elem_of_reverse.
Qed.

(** [k in c] tells whether [c[k]] succeeds. For [BaseContext] the two scan
    the frames in opposite directions; on a non-empty stack of allocated
    frames they agree all the same, and so do the top-only methods of
    [RenderContext]. *)
Theorem contains_iff_getitem_succeeds (w : world) (c : loc)
    (inst : instance) (fs : list frame) (k : string) :
  inst_heap w !! c = Some inst →
  dicts inst ≠ [] →
  frames_of w (dicts inst) = Some fs →
  (__contains__ c k w = Ok true ∧ ∃ v, __getitem__ c k w = Ok v) ∨
  (__contains__ c k w = Ok false ∧ __getitem__ c k w = Raise (KeyError k)).
Proof.
  intros Hc Hne Hfs.
  assert ((BaseContext_has_key c k w = Ok true ∧
           ∃ v, BaseContext__getitem__ c k w = Ok v) ∨
          (BaseContext_has_key c k w = Ok false ∧
           BaseContext__getitem__ c k w = Raise (KeyError k))) as HB.
  { rewrite (BaseContext__getitem___frames _ _ _ _ k Hc Hfs).
    unfold BaseContext_has_key, load_inst. rewrite Hc. simpl.
    rewrite (find_in_frames _ _ _ _ Hfs). simpl.
    destruct (first_binding k (reverse fs)) as [v|] eqn:Hr.
    - left. split; [|by eauto]. f_equal. apply bool_decide_eq_true.
      apply first_binding_reverse_is_Some. by rewrite Hr.
    - right. split; [|done]. f_equal. apply bool_decide_eq_false.
      intros Hs. apply first_binding_reverse_is_Some in Hs.
      rewrite Hr in Hs. by destruct Hs. }
  unfold __contains__, has_key, __getitem__, class_of, load_inst.
  rewrite Hc. simpl. destruct (cls inst); try exact HB.
  destruct (dicts inst) as [|l ds] eqn:Hd using rev_ind; [done|].
  clear IHds. rewrite frames_of_app in Hfs.
  destruct (frames_of w ds) as [fs'|]; [|done]. simpl in Hfs.
  destruct (dict_heap w !! l) as [d|] eqn:Hl; [|done].
  unfold RenderContext_has_key, RenderContext__getitem__, top_frame,
    load_inst, load_dict.
  rewrite Hc. simpl. rewrite Hd, last_snoc. simpl. rewrite Hl. simpl.
  destruct (items d !! k) as [v|]; [left|right]; split; try done.
  by exists v.
Qed.

Lemma contains_iff_getitem_succeeds_witness :
  (__contains__ 0 "b" sample_pushed = Ok true ∧
   ∃ v, __getitem__ 0 "b" sample_pushed = Ok v) ∨
  (__contains__ 0 "b" sample_pushed = Ok false ∧
   __getitem__ 0 "b" sample_pushed = Raise (KeyError "b")).
Proof.
  apply (contains_iff_getitem_succeeds sample_pushed 0
           (Instance ContextC [1; 2; 3]
              (Some (ContextAttrs true None None None 1)))
           [builtins; {[ "a" := VInt 1 ]};
            {[ "a" := VInt 2; "b" := VInt 3 ]}]).
  - vm_compute. reflexivity.
  - discriminate.
  - vm_compute. reflexivity.
Defined.

(** ** Assignment and deletion *)

Lemma find_in_ext_key w w' k ds :
  (∀ l, l ∈ ds →
     (λ d, items d !! k) <$> dict_heap w' !! l
     = (λ d, items d !! k) <$> dict_heap w !! l) →
  find_in w' k ds = find_in w k ds.
Proof.
  induction ds as [|l ds IH]; intros Hext; [done|]. simpl.
  unfold load_dict.
  pose proof (Hext l (list_elem_of_here _ _)) as Hl.
  rewrite IH by (intros l' Hl'; apply Hext; by apply list_elem_of_further).
  destruct (dict_heap w' !! l) as [d'|], (dict_heap w !! l) as [d|];
    simpl in *; try done.
  injection Hl as Hl. by rewrite Hl.
Qed.

Lemma __getitem___ext_key w w' c k inst :
  inst_heap w !! c = Some inst →
  inst_heap w' !! c = Some inst →
  (∀ l, l ∈ dicts inst →
     (λ d, items d !! k) <$> dict_heap w' !! l
     = (λ d, items d !! k) <$> dict_heap w !! l) →
  __getitem__ c k w' = __getitem__ c k w.
Proof.
  intros Hc Hc' Hext.
  unfold __getitem__, class_of, load_inst. rewrite Hc, Hc'. simpl.
  destruct (cls inst); simpl.
  3: { unfold RenderContext__getitem__, top_frame, load_inst, load_dict.
       rewrite Hc, Hc'. simpl.
       destruct (last (dicts inst)) as [t|] eqn:Ht; simpl; [|done].
       assert (t ∈ dicts inst) as Hin.
       { apply last_Some in Ht as [l' ->]. apply elem_of_app. right.
         apply list_elem_of_here. }
       specialize (Hext t Hin).
       destruct (dict_heap w' !! t) as [d'|], (dict_heap w !! t) as [d|];
         simpl in *; try done.
       injection Hext as Hext. by rewrite Hext. }
  all: unfold BaseContext__getitem__, load_inst; rewrite Hc, Hc'; simpl.
  all: rewrite (find_in_ext_key w w'); [done|].
  all: intros l Hl; apply Hext; by apply elem_of_reverse.
Qed.

(** Assignment is read back: after [c[k] = v], [c[k]] is [v] and every
    other key resolves as before, for every class and whatever frames
    share objects. *)
Theorem setitem_then_getitem (w : world) (c : loc) (inst : instance)
    (lower : list loc) (t : loc) (d : dict_obj) (k : string) (v : value) :
  inst_heap w !! c = Some inst →
  dicts inst = lower ++ [t] →
  dict_heap w !! t = Some d →
  ∃ w',
    __setitem__ c k v w = (Ok tt, w') ∧
    __getitem__ c k w' = Ok v ∧
    ∀ k', k' ≠ k → __getitem__ c k' w' = __getitem__ c k' w.
Proof.
  intros Hc Hd Ht. eexists. split; [by eapply __setitem___top|]. split.
  - apply (__getitem___top _ c inst lower t
             (set_items d (<[k := v]> (items d)))); simpl; try done.
    + apply lookup_insert_eq.
    + apply lookup_insert_eq.
  - intros k' Hk'. apply __getitem___ext_key with (inst := inst); try done.
    intros l Hl. simpl. destruct (decide (l = t)) as [-> | Hne].
    + rewrite lookup_insert_eq, Ht. simpl. by rewrite lookup_insert_ne.
    + by rewrite lookup_insert_ne.
Qed.

Lemma setitem_then_getitem_witness :
  ∃ w',
    __setitem__ 0 "a" (VInt 7) sample_pushed = (Ok tt, w') ∧
    __getitem__ 0 "a" w' = Ok (VInt 7) ∧
    ∀ k', k' ≠ "a" → __getitem__ 0 k' w' = __getitem__ 0 k' sample_pushed.
Proof.
  apply (setitem_then_getitem sample_pushed 0
           (Instance ContextC [1; 2; 3]
              (Some (ContextAttrs true None None None 1)))
           [1; 2] 3
           (DictObj {[ "a" := VInt 2; "b" := VInt 3 ]} (Some 0)));
    vm_compute; reflexivity.
Defined.

(** Deletion acts on the top frame only, for every class and also when
    frame objects are shared. A key the top frame does not bind raises
    [KeyError] and nothing changes, also when a lower frame binds it. A
    key the top frame binds is deleted there: the call succeeds, no
    instance and no other dict object changes, and every other key
    resolves as before. Afterwards [c[k]] raises [KeyError] on a
    [RenderContext]; with the [BaseContext] lookup, and the top frame
    object not also lower in the stack, it gives what the frames below
    give. *)
Theorem delitem_top_frame_only (w : world) (c : loc) (inst : instance)
    (lower : list loc) (t : loc) (d : dict_obj) (k : string) :
  inst_heap w !! c = Some inst →
  dicts inst = lower ++ [t] →
  dict_heap w !! t = Some d →
  (items d !! k = None → __delitem__ c k w = (Raise (KeyError k), w)) ∧
  (is_Some (items d !! k) →
   ∃ w',
     __delitem__ c k w = (Ok tt, w') ∧
     inst_heap w' = inst_heap w ∧
     (∀ l, l ≠ t → dict_heap w' !! l = dict_heap w !! l) ∧
     dict_heap w' !! t = Some (set_items d (delete k (items d))) ∧
     (∀ k', k' ≠ k → __getitem__ c k' w' = __getitem__ c k' w) ∧
     (cls inst = RenderContextC →
      __getitem__ c k w' = Raise (KeyError k)) ∧
     (cls inst ≠ RenderContextC → t ∉ lower →
      __getitem__ c k w' = __getitem__ c k (drop_top w c))).
Proof.
  intros Hc Hd Ht. split.
  - intros Hk. unfold_methods. simpl. rewrite Hc. simpl.
    rewrite Hd, last_snoc. simpl. rewrite Ht. simpl. by rewrite Hk.
  - intros [v Hk].
    exists (World (<[t := set_items d (delete k (items d))]> (dict_heap w))
              (inst_heap w)).
    split_and!.
    + unfold_methods. simpl. rewrite Hc. simpl.
      rewrite Hd, last_snoc. simpl. rewrite Ht. simpl. by rewrite Hk.
    + done.
    + intros l Hl. simpl. by rewrite lookup_insert_ne.
    + simpl. apply lookup_insert_eq.
    + intros k' Hk'. apply __getitem___ext_key with (inst := inst); try done.
      intros l Hl. simpl. destruct (decide (l = t)) as [-> | Hne].
      * rewrite lookup_insert_eq, Ht. simpl. by rewrite lookup_delete_ne.
      * by rewrite lookup_insert_ne.
    + intros Hcls. unfold __getitem__, class_of, load_inst. simpl.
      rewrite Hc. simpl. rewrite Hcls.
      unfold RenderContext__getitem__, top_frame, load_inst, load_dict.
      simpl. rewrite Hc. simpl. rewrite Hd, last_snoc. simpl.
      rewrite lookup_insert_eq. simpl. by rewrite lookup_delete_eq.
    + intros Hcls Hfresh.
      unfold drop_top. rewrite Hc, Hd, removelast_last.
      unfold __getitem__, class_of, load_inst. simpl.
      rewrite Hc, lookup_insert_eq. simpl.
      assert (BaseContext__getitem__ c k
                (World (<[t := set_items d (delete k (items d))]> (dict_heap w))
                   (inst_heap w))
              = BaseContext__getitem__ c k
                  (World (dict_heap w)
                     (<[c := set_dicts inst lower]> (inst_heap w)))) as HB.
      { unfold BaseContext__getitem__, load_inst. simpl.
        rewrite Hc, lookup_insert_eq. simpl.
        rewrite Hd, reverse_snoc. simpl. unfold load_dict. simpl.
        rewrite lookup_insert_eq. simpl. rewrite lookup_delete_eq.
        f_equal. apply find_in_ext. intros l Hl. simpl.
        rewrite lookup_insert_ne; [done|]. intros ->.
        apply Hfresh. by apply elem_of_reverse. }
      by destruct (cls inst).
Qed.

Lemma delitem_top_frame_only_witness :
  __delitem__ 0 "True" (drop_top sample_render 0)
    = (Raise (KeyError "True"), drop_top sample_render 0) ∧
  ∃ w',
    __delitem__ 0 "x" (drop_top sample_render 0) = (Ok tt, w') ∧
    inst_heap w' = inst_heap (drop_top sample_render 0) ∧
    (∀ l, l ≠ 1 →
       dict_heap w' !! l = dict_heap (drop_top sample_render 0) !! l) ∧
    __getitem__ 0 "x" w' = Raise (KeyError "x").
Proof.
  split.
  - destruct (delitem_top_frame_only (drop_top sample_render 0) 0
                (Instance RenderContextC [0; 1] None) [0] 1
                (DictObj {[ "x" := VInt 1 ]} (Some 0)) "True")
      as [Hnone _]; [vm_compute; reflexivity..|].
    apply Hnone. vm_compute. reflexivity.
  - destruct (delitem_top_frame_only (drop_top sample_render 0) 0
                (Instance RenderContextC [0; 1] None) [0] 1
                (DictObj {[ "x" := VInt 1 ]} (Some 0)) "x")
      as [_ Hdel]; [vm_compute; reflexivity..|].
    destruct Hdel as (w' & Hd & Hi & Hl & _ & _ & Hr & _).
    + vm_compute. eexists. reflexivity.
    + exists w'. split_and!; [done..|]. by apply Hr.
Defined.

(** On the sample, deleting the shadowing binding of [a] brings back the
    value of the frame below; a key bound only below cannot be deleted. *)
Example delitem_sample :
  fst ((__delitem__ 0 "a" ;;; lift (__getitem__ 0 "a")) sample_pushed)
    = Ok (VInt 1) ∧
  __delitem__ 0 "True" sample_pushed = (Raise (KeyError "True"), sample_pushed).
Proof. split; vm_compute; reflexivity. Qed.

(** ** Unbalanced [pop] *)

(** On a stack of [n + 1] frames exactly [n] calls of [pop] succeed. They
    return the frames from the top down, destroy no dict object and leave
    the bottom frame alone; the next call raises [ContextPopException]
    and changes nothing. *)
Theorem pop_succeeds_down_to_floor (w : world) (c : loc) (inst : instance)
    (b : loc) (rest : list loc) :
  inst_heap w !! c = Some inst →
  dicts inst = b :: rest →
  ∃ w',
    pop_times (length rest) c w = (Ok (reverse rest), w') ∧
    dict_heap w' = dict_heap w ∧
    inst_heap w' !! c = Some (set_dicts inst [b]) ∧
    pop c w' = (Raise ContextPopException, w').
Proof.
  revert w inst. induction rest as [|t rest IH] using rev_ind;
    intros w inst Hc Hd.
  - exists w. simpl. split_and!; try done.
    + rewrite Hc. f_equal. destruct inst. simpl in Hd. by subst.
    + by apply (pop_floor w c inst b).
  - rewrite length_app, Nat.add_comm. simpl.
    pose proof (pop_result w c inst (b :: rest) t Hc) as Hpop.
    rewrite Hd in Hpop. specialize (Hpop eq_refl ltac:(done)).
    destruct (IH (World (dict_heap w)
                    (<[c := set_dicts inst (b :: rest)]> (inst_heap w)))
                 (set_dicts inst (b :: rest)))
      as (w' & Hpops & Hdh & Hi & Hfloor);
      [simpl; apply lookup_insert_eq|done|].
    exists w'. split_and!; try done.
    unfold bind at 1. rewrite Hpop. unfold bind at 1. rewrite Hpops.
    unfold ret. by rewrite reverse_snoc.
Qed.

Lemma pop_succeeds_down_to_floor_witness :
  ∃ w',
    pop_times 2 0 sample_pushed = (Ok [3; 2], w') ∧
    dict_heap w' = dict_heap sample_pushed ∧
    inst_heap w' !! 0 =
      Some (Instance ContextC [1] (Some (ContextAttrs true None None None 1))) ∧
    pop 0 w' = (Raise ContextPopException, w').
Proof.
  apply (pop_succeeds_down_to_floor sample_pushed 0
           (Instance ContextC [1; 2; 3]
              (Some (ContextAttrs true None None None 1)))
           1 [2; 3]).
  - vm_compute. reflexivity.
  - reflexivity.
Defined.

(** ** Which dicts are shared and which are copied *)

Lemma new_Context_result w dict_ ae app l10n tz :
  let self := fresh (dom (inst_heap w)) in
  let ih0 := <[self := Instance ContextC [] None]> (inst_heap w) in
  let rc := fresh (dom ih0) in
  let b0 := fresh (dom (dict_heap w)) in
  let dh1 := <[b0 := DictObj builtins None]> (dict_heap w) in
  let b := fresh (dom dh1) in
  new_Context dict_ ae app l10n tz w =
  (Ok self,
   World (<[b := DictObj builtins None]> dh1)
     (<[self := Instance ContextC
                  ([b] ++ match dict_ with Some v => [v] | None => [] end)
                  (Some (ContextAttrs ae app l10n tz rc))]>
        (<[rc := Instance RenderContextC [b0] None]> ih0))).
Proof.
  intros self ih0 rc b0 dh1 b. unfold new_Context, bind at 1, alloc_inst.
  fold self. fold ih0. unfold bind.
  rewrite (Context__init___result (World (dict_heap w) ih0) self
             (Instance ContextC [] None))
    by (simpl; apply lookup_insert_eq).
  done.
Qed.

(** The dict handed to [Context(...)] becomes a frame as it is: the new
    context has a new builtins dict at the bottom and the caller's dict
    on top of it, and an assignment through the context is an assignment
    into the caller's dict. *)
Theorem context_shares_initial_dict (w : world) (d0 : loc) (dobj : dict_obj)
    (ae : bool) (app : option string) (l10n tz : option bool)
    (k : string) (v : value) :
  dict_heap w !! d0 = Some dobj →
  ∃ c w1 w2 inst b,
    new_Context (Some d0) ae app l10n tz w = (Ok c, w1) ∧
    inst_heap w !! c = None ∧ dict_heap w !! b = None ∧
    inst_heap w1 !! c = Some inst ∧ dicts inst = [b; d0] ∧
    dict_heap w1 !! b = Some (DictObj builtins None) ∧
    dict_heap w1 !! d0 = Some dobj ∧
    __setitem__ c k v w1 = (Ok tt, w2) ∧
    dict_heap w2 !! d0 = Some (set_items dobj (<[k := v]> (items dobj))) ∧
    dict_heap w2 !! b = Some (DictObj builtins None).
Proof.
  intros Hd0.
  set (self := fresh (dom (inst_heap w))).
  set (ih0 := <[self := Instance ContextC [] None]> (inst_heap w)).
  set (rc := fresh (dom ih0)).
  set (b0 := fresh (dom (dict_heap w))).
  set (dh1 := <[b0 := DictObj builtins None]> (dict_heap w)).
  set (b := fresh (dom dh1)).
  set (inst := Instance ContextC [b; d0]
                 (Some (ContextAttrs ae app l10n tz rc))).
  set (w1 := World (<[b := DictObj builtins None]> dh1)
               (<[self := inst]>
                  (<[rc := Instance RenderContextC [b0] None]> ih0))).
  assert (d0 ≠ b0) as Hb0 by (apply fresh_not_allocated; by eexists).
  assert (dh1 !! d0 = Some dobj) as Hd1
    by (unfold dh1; by rewrite lookup_insert_ne).
  assert (d0 ≠ b) as Hb by (apply fresh_not_allocated; by eexists).
  assert (dh1 !! b = None) as Hbn by apply fresh_lookup_None.
  assert (dict_heap w1 !! d0 = Some dobj) as Hd0'
    by (simpl; by rewrite lookup_insert_ne).
  exists self, w1. eexists. exists inst, b. split_and!.
  - apply new_Context_result.
  - apply fresh_lookup_None.
  - unfold dh1 in Hbn. destruct (decide (b = b0)) as [E|E].
    + rewrite E in Hbn. by rewrite lookup_insert_eq in Hbn.
    + by rewrite lookup_insert_ne in Hbn.
  - simpl. apply lookup_insert_eq.
  - done.
  - simpl. apply lookup_insert_eq.
  - done.
  - apply (__setitem___top w1 self inst [b] d0 dobj); [|done|done].
    simpl. apply lookup_insert_eq.
  - simpl. apply lookup_insert_eq.
  - simpl. rewrite lookup_insert_ne by done. apply lookup_insert_eq.
Qed.

Lemma context_shares_initial_dict_witness :
  ∃ c w1 w2 inst b,
    new_Context (Some 1) true None None None sample_fresh = (Ok c, w1) ∧
    inst_heap sample_fresh !! c = None ∧ dict_heap sample_fresh !! b = None ∧
    inst_heap w1 !! c = Some inst ∧ dicts inst = [b; 1] ∧
    dict_heap w1 !! b = Some (DictObj builtins None) ∧
    dict_heap w1 !! 1 = Some (DictObj builtins None) ∧
    __setitem__ c "x" (VInt 1) w1 = (Ok tt, w2) ∧
    dict_heap w2 !! 1 =
      Some (set_items (DictObj builtins None)
              (<["x" := VInt 1]> (items (DictObj builtins None)))) ∧
    dict_heap w2 !! b = Some (DictObj builtins None).
Proof.
  apply (context_shares_initial_dict sample_fresh 1 (DictObj builtins None)).
  vm_compute. reflexivity.
Defined.

Lemma push_result_mapping w c inst a dobj kwargs :
  kwargs !! "self" = None → kwargs !! "context" = None →
  inst_heap w !! c = Some inst →
  dict_heap w !! a = Some dobj →
  let h := fresh (dom (dict_heap w)) in
  push c (Some a) kwargs w =
  (Ok h,
   World (<[h := DictObj (kwargs ∪ items dobj) (Some c)]> (dict_heap w))
         (<[c := set_dicts inst (dicts inst ++ [h])]> (inst_heap w))).
Proof.
  intros Hks Hkc Hc Ha h. rewrite push_body, keywords_accepted by done.
  unfold_methods. simpl. rewrite Ha. simpl. rewrite Hc.
  simpl. fold h. by rewrite insert_insert_eq.
Qed.

(** [push(d, **kwargs)], with keywords other than [self] and [context],
    copies: the new top frame is a new dict holding the items of [d]
    (whatever its keys) overridden by the keyword arguments, [d] itself
    is not put on the stack, and a later assignment through the context
    leaves [d] as it was. *)
Theorem push_copies_mapping (w : world) (c : loc) (inst : instance)
    (a : loc) (dobj : dict_obj) (kwargs : frame) (k : string) (v : value) :
  kwargs !! "self" = None → kwargs !! "context" = None →
  inst_heap w !! c = Some inst →
  dict_heap w !! a = Some dobj →
  ∃ h w1 w2,
    push c (Some a) kwargs w = (Ok h, w1) ∧
    dict_heap w !! h = None ∧
    dict_heap w1 !! h = Some (DictObj (kwargs ∪ items dobj) (Some c)) ∧
    (∃ inst1, inst_heap w1 !! c = Some inst1 ∧
              dicts inst1 = dicts inst ++ [h]) ∧
    (∀ k' x, (kwargs ∪ items dobj) !! k' = Some x →
             __getitem__ c k' w1 = Ok x) ∧
    __setitem__ c k v w1 = (Ok tt, w2) ∧
    __getitem__ c k w2 = Ok v ∧
    dict_heap w2 !! a = Some dobj.
Proof.
  intros Hks Hkc Hc Ha.
  set (h := fresh (dom (dict_heap w))).
  set (top := DictObj (kwargs ∪ items dobj) (Some c)).
  set (inst1 := set_dicts inst (dicts inst ++ [h])).
  set (w1 := World (<[h := top]> (dict_heap w)) (<[c := inst1]> (inst_heap w))).
  assert (a ≠ h) as Hah by (apply fresh_not_allocated; by eexists).
  assert (inst_heap w1 !! c = Some inst1) as Hc1 by apply lookup_insert_eq.
  assert (dict_heap w1 !! h = Some top) as Hh1 by apply lookup_insert_eq.
  exists h, w1. eexists. split_and!.
  - by apply push_result_mapping.
  - apply fresh_lookup_None.
  - done.
  - by exists inst1.
  - intros k' x Hx.
    by apply (__getitem___top w1 c inst1 (dicts inst) h top).
  - by apply (__setitem___top w1 c inst1 (dicts inst) h top).
  - apply (__getitem___top _ c inst1 (dicts inst) h
             (set_items top (<[k := v]> (items top)))); simpl; try done.
    + apply lookup_insert_eq.
    + apply lookup_insert_eq.
  - simpl. by rewrite !lookup_insert_ne.
Qed.

Lemma push_copies_mapping_witness :
  ∃ h w1 w2,
    push 0 (Some 2) {[ "c" := VInt 5 ]} sample_pushed = (Ok h, w1) ∧
    dict_heap sample_pushed !! h = None ∧
    dict_heap w1 !! h =
      Some (DictObj ({[ "c" := VInt 5 ]}
                     ∪ items (DictObj {[ "a" := VInt 1 ]} (Some 0))) (Some 0)) ∧
    (∃ inst1, inst_heap w1 !! 0 = Some inst1 ∧
              dicts inst1 = [1; 2; 3] ++ [h]) ∧
    (∀ k' x, ({[ "c" := VInt 5 ]}
              ∪ items (DictObj {[ "a" := VInt 1 ]} (Some 0))) !! k' = Some x →
             __getitem__ 0 k' w1 = Ok x) ∧
    __setitem__ 0 "a" (VInt 8) w1 = (Ok tt, w2) ∧
    __getitem__ 0 "a" w2 = Ok (VInt 8) ∧
    dict_heap w2 !! 2 = Some (DictObj {[ "a" := VInt 1 ]} (Some 0)).
Proof.
  apply (push_copies_mapping sample_pushed 0
           (Instance ContextC [1; 2; 3]
              (Some (ContextAttrs true None None None 1)))
           2 (DictObj {[ "a" := VInt 1 ]} (Some 0)));
    vm_compute; reflexivity.
Defined.

(** ** [new] *)

(** [c.new(values)] on a [Context] returns a new instance of the same
    class and side state, with a render context of its own, whose frames
    are a new builtins dict and [values] (itself, when given). The
    original instance and every dict that existed are as before; without
    [values], the new context resolves the builtins and nothing else. *)
Theorem new_keeps_properties_not_frames (w : world) (C : loc)
    (inst : instance) (a : context_attrs) (rinst : instance)
    (values : option loc) :
  inst_heap w !! C = Some inst →
  cls inst = ContextC ∨ cls inst = RequestContextC →
  attrs inst = Some a →
  inst_heap w !! render_context a = Some rinst →
  ∃ c2 w' inst2 a2 b,
    new C values w = (Ok c2, w') ∧
    inst_heap w !! c2 = None ∧ dict_heap w !! b = None ∧
    inst_heap w' !! C = Some inst ∧
    (∀ l, is_Some (dict_heap w !! l) → dict_heap w' !! l = dict_heap w !! l) ∧
    inst_heap w' !! c2 = Some inst2 ∧
    cls inst2 = cls inst ∧
    dicts inst2 = [b] ++ match values with Some v => [v] | None => [] end ∧
    dict_heap w' !! b = Some (DictObj builtins None) ∧
    attrs inst2 = Some a2 ∧
    (autoescape a2, current_app a2, use_l10n a2, use_tz a2)
      = (autoescape a, current_app a, use_l10n a, use_tz a) ∧
    render_context a2 ≠ render_context a ∧
    inst_heap w !! render_context a2 = None ∧
    (values = None →
     ∀ k, __getitem__ c2 k w' =
          match builtins !! k with
          | Some v => Ok v
          | None => Raise (KeyError k)
          end).
Proof.
  intros HC Hcls Ha Hrc.
  set (c2 := fresh (dom (inst_heap w))).
  set (ih2 := <[c2 := inst]> (inst_heap w)).
  set (rc2 := fresh (dom ih2)).
  set (a2 := ContextAttrs (autoescape a) (current_app a) (use_l10n a)
               (use_tz a) rc2).
  set (I2 := Instance (cls inst) (dicts inst) (Some a2)).
  set (ih3 := <[c2 := I2]> (<[rc2 := rinst]> ih2)).
  set (b := fresh (dom (dict_heap w))).
  set (vs := match values with Some v => [v] | None => [] end).
  set (inst2 := Instance (cls inst) ([b] ++ vs) (Some a2)).
  set (w' := World (<[b := DictObj builtins None]> (dict_heap w))
               (<[c2 := inst2]> ih3)).
  assert (inst_heap w !! c2 = None) as Hc2 by apply fresh_lookup_None.
  assert (ih2 !! rc2 = None) as Hrc2' by apply fresh_lookup_None.
  assert (c2 ≠ C) as HneC by (intros E; rewrite E in Hc2; congruence).
  assert (rc2 ≠ c2) as Hne2.
  { intros E. rewrite E in Hrc2'. unfold ih2 in Hrc2'.
    by rewrite lookup_insert_eq in Hrc2'. }
  assert (inst_heap w !! rc2 = None) as Hrc2.
  { unfold ih2 in Hrc2'. by rewrite lookup_insert_ne in Hrc2'. }
  assert (rc2 ≠ C) as HneC' by (intros E; rewrite E in Hrc2; congruence).
  assert (inst_heap w' !! c2 = Some inst2) as Hi2 by apply lookup_insert_eq.
  assert (dict_heap w' !! b = Some (DictObj builtins None)) as Hb
    by apply lookup_insert_eq.
  exists c2, w', inst2, a2, b. split_and!; try done.
  - unfold new, bind at 1, copy, bind at 1, lift, class_of, load_inst.
    rewrite HC. simpl.
    pose proof (Context__copy___result w C inst a rinst HC Ha Hrc) as Hcopy.
    simpl in Hcopy. fold c2 ih2 rc2 a2 I2 ih3 in Hcopy.
    assert (match cls inst with
            | ContextC | RequestContextC => Context__copy__ C
            | _ => BaseContext__copy__ C
            end w = (Ok c2, World (dict_heap w) ih3)) as ->
      by (by destruct Hcls as [-> | ->]).
    unfold bind.
    rewrite (_reset_dicts_result _ c2 I2 values)
      by (simpl; apply lookup_insert_eq).
    reflexivity.
  - apply fresh_lookup_None.
  - simpl. unfold ih3, ih2. by rewrite !lookup_insert_ne.
  - intros l Hl. simpl. rewrite lookup_insert_ne; [done|].
    apply not_eq_sym. by apply fresh_not_allocated.
  - simpl. intros E. rewrite <- E in Hrc. congruence.
  - intros -> k.
    assert (BaseContext__getitem__ c2 k w' =
            match builtins !! k with
            | Some v => Ok v
            | None => Raise (KeyError k)
            end) as HB.
    { unfold BaseContext__getitem__, load_inst. rewrite Hi2. simpl.
      unfold load_dict. rewrite Hb. simpl. by destruct (builtins !! k). }
    unfold __getitem__, class_of, load_inst. rewrite Hi2. simpl.
    by destruct Hcls as [-> | ->].
Qed.

Lemma new_keeps_properties_not_frames_witness :
  ∃ c2 w' inst2 b,
    new 0 None sample_pushed = (Ok c2, w') ∧
    inst_heap w' !! c2 = Some inst2 ∧ dicts inst2 = [b] ∧
    dict_heap w' !! b = Some (DictObj builtins None) ∧
    __getitem__ c2 "a" w' = Raise (KeyError "a") ∧
    __getitem__ 0 "a" w' = Ok (VInt 2).
Proof.
  destruct (new_keeps_properties_not_frames sample_pushed 0
              (Instance ContextC [1; 2; 3]
                 (Some (ContextAttrs true None None None 1)))
              (ContextAttrs true None None None 1)
              (Instance RenderContextC [0] None) None)
    as (c2 & w' & inst2 & a2 & b & Hnew & _ & _ & HC & Hdh & Hi2 & _ & Hd2
        & Hb & _ & _ & _ & _ & Hget).
  - vm_compute. reflexivity.
  - left. reflexivity.
  - reflexivity.
  - vm_compute. reflexivity.
  - exists c2, w', inst2, b. split_and!; try done.
    + by rewrite (Hget eq_refl "a").
    + apply (__getitem___top w' 0 _ [1; 2] 3
               (DictObj {[ "a" := VInt 2; "b" := VInt 3 ]} (Some 0))
               "a" (VInt 2) HC); [reflexivity| |reflexivity].
      rewrite Hdh; [vm_compute; reflexivity|].
      vm_compute. eexists. reflexivity.
Defined.

(** ** [flatten] across [push], [update] and [pop] *)

Lemma frames_of_ext w w' ds :
  (∀ l, l ∈ ds → dict_heap w' !! l = dict_heap w !! l) →
  frames_of w' ds = frames_of w ds.
Proof.
  induction ds as [|l ds IH]; intros Hext; [done|]. simpl.
  rewrite (Hext l) by apply list_elem_of_here.
  rewrite IH; [done|]. intros l' Hl'. apply Hext.
  by apply list_elem_of_further.
Qed.

Lemma frames_of_allocated w ds fs :
  frames_of w ds = Some fs → ∀ l, l ∈ ds → is_Some (dict_heap w !! l).
Proof.
  revert fs. induction ds as [|l0 ds IH]; intros fs Hfs l Hl.
  - by apply elem_of_nil in Hl.
  - simpl in Hfs. destruct (dict_heap w !! l0) as [d|] eqn:Hl0; [|done].
    destruct (frames_of w ds) as [fs'|]; [|done].
    apply elem_of_cons in Hl as [-> | Hl].
    + rewrite Hl0. by eexists.
    + by apply (IH fs').
Qed.

Lemma merge_frames_snoc flat fs f :
  merge_frames flat (fs ++ [f]) = f ∪ merge_frames flat fs.
Proof. unfold merge_frames. by rewrite fold_left_app. Qed.

(** Pushing a frame of keyword arguments (none named [self] or
    [context]) puts them over the flattened view, whatever the frames
    below hold; popping it gives back the handle
    [push] returned, the flattened view and the instance as they were
    before the push. *)
Theorem flatten_push_pop (w : world) (c : loc) (inst : instance)
    (fs : list frame) (kwargs : frame) :
  kwargs !! "self" = None → kwargs !! "context" = None →
  inst_heap w !! c = Some inst →
  dicts inst ≠ [] →
  frames_of w (dicts inst) = Some fs →
  ∃ h w1 w2 flat,
    flatten c w = Ok flat ∧
    push c None kwargs w = (Ok h, w1) ∧
    flatten c w1 = Ok (kwargs ∪ flat) ∧
    pop c w1 = (Ok h, w2) ∧
    flatten c w2 = Ok flat ∧
    inst_heap w2 = inst_heap w.
Proof.
  intros Hks Hkc Hc Hne Hfs.
  set (h := fresh (dom (dict_heap w))).
  set (dh1 := <[h := DictObj (kwargs ∪ ∅) (Some c)]> (dict_heap w)).
  set (inst1 := set_dicts inst (dicts inst ++ [h])).
  set (w1 := World dh1 (<[c := inst1]> (inst_heap w))).
  set (w2 := World dh1 (<[c := set_dicts inst1 (dicts inst)]>
                          (inst_heap w1))).
  assert (∀ l, l ∈ dicts inst → dh1 !! l = dict_heap w !! l) as Hext.
  { intros l Hl. unfold dh1. rewrite lookup_insert_ne; [done|].
    apply not_eq_sym, fresh_not_allocated.
    by apply (frames_of_allocated w (dicts inst) fs). }
  assert (inst_heap w2 = inst_heap w) as Hih.
  { simpl. rewrite insert_insert_eq. apply insert_id. rewrite Hc.
    by destruct inst. }
  exists h, w1, w2, (merge_frames ∅ fs). split_and!.
  - by apply (flatten_frames w c inst).
  - by apply push_result.
  - rewrite (flatten_frames w1 c inst1 (fs ++ [kwargs ∪ ∅])).
    + by rewrite merge_frames_snoc, (right_id_L ∅ (∪)).
    + apply lookup_insert_eq.
    + simpl. rewrite frames_of_app.
      rewrite (frames_of_ext w w1) by done. rewrite Hfs. simpl.
      unfold dh1. by rewrite lookup_insert_eq.
  - apply (pop_result w1 c inst1 (dicts inst) h); [|done..].
    apply lookup_insert_eq.
  - apply (flatten_frames w2 c (set_dicts inst1 (dicts inst))).
    + simpl. apply lookup_insert_eq.
    + simpl. by rewrite (frames_of_ext w w2).
  - done.
Qed.

Lemma flatten_push_pop_witness :
  ∃ h w1 w2 flat,
    flatten 0 sample_pushed = Ok flat ∧
    push 0 None {[ "b" := VInt 7; "c" := VInt 8 ]} sample_pushed
      = (Ok h, w1) ∧
    flatten 0 w1 = Ok ({[ "b" := VInt 7; "c" := VInt 8 ]} ∪ flat) ∧
    pop 0 w1 = (Ok h, w2) ∧
    flatten 0 w2 = Ok flat ∧
    inst_heap w2 = inst_heap sample_pushed.
Proof.
  apply (flatten_push_pop sample_pushed 0
           (Instance ContextC [1; 2; 3]
              (Some (ContextAttrs true None None None 1)))
           [builtins; {[ "a" := VInt 1 ]};
            {[ "a" := VInt 2; "b" := VInt 3 ]}]).
  - reflexivity.
  - reflexivity.
  - vm_compute. reflexivity.
  - discriminate.
  - vm_compute. reflexivity.
Defined.

(** [update(d)] followed by [pop()] is a round trip on the whole store:
    [pop] returns the very object that was merged, and every instance and
    every dict object is as before the two calls. *)
Theorem update_pop_round_trip (w : world) (c : loc) (inst : instance)
    (d : loc) :
  inst_heap w !! c = Some inst →
  cls inst = ContextC ∨ cls inst = RequestContextC →
  dicts inst ≠ [] →
  ∃ w1,
    update c (PDict d) w = (Ok (PDict d), w1) ∧
    pop c w1 = (Ok d, w).
Proof.
  intros Hc Hcls Hne.
  set (inst1 := set_dicts inst (dicts inst ++ [d])).
  exists (World (dict_heap w) (<[c := inst1]> (inst_heap w))). split.
  - unfold update, bind at 1, lift, class_of, load_inst. rewrite Hc. simpl.
    etrans; [|apply (Context_update_dict w c inst d Hc)].
    by destruct Hcls as [-> | ->].
  - rewrite (pop_result _ c inst1 (dicts inst) d);
      [|apply lookup_insert_eq|done..].
    simpl. rewrite insert_insert_eq. f_equal.
    destruct w as [dh ih]. simpl in *. f_equal. apply insert_id.
    rewrite Hc. by destruct inst.
Qed.

Lemma update_pop_round_trip_witness :
  ∃ w1,
    update 0 (PDict 2) sample_pushed = (Ok (PDict 2), w1) ∧
    pop 0 w1 = (Ok 2, sample_pushed).
Proof.
  apply (update_pop_round_trip sample_pushed 0
           (Instance ContextC [1; 2; 3]
              (Some (ContextAttrs true None None None 1))) 2).
  - vm_compute. reflexivity.
  - left. reflexivity.
  - discriminate.
Defined.

(** ** [==] between contexts *)

Lemma py_eq_refl a : py_eq a a = true.
Proof. destruct a; simpl; by rewrite ?bool_decide_eq_true. Qed.

Lemma py_eq_sym a b : py_eq a b = py_eq b a.
Proof.
  destruct a, b; simpl; try done; apply bool_decide_ext; split; congruence.
Qed.

Lemma py_eq_trans a b c :
  py_eq a b = true → py_eq b c = true → py_eq a c = true.
Proof.
  destruct a, b, c; simpl; try done; rewrite !bool_decide_eq_true;
    intros; simplify_eq; try done;
    repeat match goal with x : bool |- _ => destruct x end; done.
Qed.

Lemma same_bindings_refl a : same_bindings a a.
Proof. intros k. destruct (a !! k); [apply py_eq_refl|done]. Qed.

Lemma same_bindings_sym a b : same_bindings a b → same_bindings b a.
Proof.
  intros H k. specialize (H k). destruct (a !! k), (b !! k); try done.
  by rewrite py_eq_sym.
Qed.

Lemma same_bindings_trans a b c :
  same_bindings a b → same_bindings b c → same_bindings a c.
Proof.
  intros Hab Hbc k. specialize (Hab k). specialize (Hbc k).
  destruct (a !! k), (b !! k), (c !! k); try done.
  by eapply py_eq_trans.
Qed.

Lemma dict_eq_sym a b : dict_eq a b = dict_eq b a.
Proof.
  apply eq_true_iff_eq. rewrite !dict_eq_spec.
  split; apply same_bindings_sym.
Qed.

Lemma __eq___frames w A B ia ib fa fb :
  inst_heap w !! A = Some ia → frames_of w (dicts ia) = Some fa →
  inst_heap w !! B = Some ib → frames_of w (dicts ib) = Some fb →
  __eq__ A (OInst B) w = Ok (dict_eq (merge_frames ∅ fa) (merge_frames ∅ fb)).
Proof.
  intros HA Hfa HB Hfb. unfold __eq__, load_inst. rewrite HB. simpl.
  rewrite (flatten_frames w A ia fa), (flatten_frames w B ib fb); done.
Qed.

(** On contexts whose frames all exist, [==] is an equivalence: every
    context equals itself, the result does not depend on which operand is
    on the left, and equality carries over a common middle operand, also
    where values are equal without being identical ([True == 1]). *)
Theorem eq_is_equivalence (w : world) (A B C : loc) (ia ib ic : instance)
    (fa fb fc : list frame) :
  inst_heap w !! A = Some ia → frames_of w (dicts ia) = Some fa →
  inst_heap w !! B = Some ib → frames_of w (dicts ib) = Some fb →
  inst_heap w !! C = Some ic → frames_of w (dicts ic) = Some fc →
  __eq__ A (OInst A) w = Ok true ∧
  __eq__ A (OInst B) w = __eq__ B (OInst A) w ∧
  (__eq__ A (OInst B) w = Ok true → __eq__ B (OInst C) w = Ok true →
   __eq__ A (OInst C) w = Ok true).
Proof.
  intros HA Hfa HB Hfb HC Hfc.
  rewrite (__eq___frames w A A ia ia fa fa),
          (__eq___frames w A B ia ib fa fb),
          (__eq___frames w B A ib ia fb fa),
          (__eq___frames w B C ib ic fb fc),
          (__eq___frames w A C ia ic fa fc) by done.
  split_and!.
  - f_equal. apply dict_eq_spec, same_bindings_refl.
  - f_equal. apply dict_eq_sym.
  - intros [= Hab] [= Hbc]. f_equal.
    apply dict_eq_spec in Hab, Hbc. apply dict_eq_spec.
    by eapply same_bindings_trans.
Qed.

Lemma eq_is_equivalence_witness :
  __eq__ 0 (OInst 0) sample_two = Ok true ∧
  __eq__ 0 (OInst 2) sample_two = __eq__ 2 (OInst 0) sample_two ∧
  (__eq__ 0 (OInst 2) sample_two = Ok true →
   __eq__ 2 (OInst 0) sample_two = Ok true →
   __eq__ 0 (OInst 0) sample_two = Ok true).
Proof.
  apply (eq_is_equivalence sample_two 0 2 0
           (Instance ContextC [1; 2; 3]
              (Some (ContextAttrs true None None None 1)))
           (Instance ContextC [5; 6]
              (Some (ContextAttrs true None None None 3)))
           (Instance ContextC [1; 2; 3]
              (Some (ContextAttrs true None None None 1)))
           [builtins; {[ "a" := VInt 1 ]};
            {[ "a" := VInt 2; "b" := VInt 3 ]}]
           [builtins; {[ "a" := VInt 2; "b" := VInt 3 ]}]
           [builtins; {[ "a" := VInt 1 ]};
            {[ "a" := VInt 2; "b" := VInt 3 ]}]);
    vm_compute; reflexivity.
Defined.

(** A copy of a [Context] compares equal to its original, in both
    directions, and flattens to the same dict as the original did. *)
Theorem copy_equals_original (w : world) (C : loc) (inst : instance)
    (a : context_attrs) (rinst : instance) (fs : list frame) :
  inst_heap w !! C = Some inst →
  cls inst = ContextC ∨ cls inst = RequestContextC →
  attrs inst = Some a →
  inst_heap w !! render_context a = Some rinst →
  frames_of w (dicts inst) = Some fs →
  ∃ c2 w',
    copy C w = (Ok c2, w') ∧
    c2 ≠ C ∧
    __eq__ c2 (OInst C) w' = Ok true ∧
    __eq__ C (OInst c2) w' = Ok true ∧
    flatten c2 w' = flatten C w.
Proof.
  intros HC Hcls Ha Hrc Hfs.
  pose proof (Context__copy___result w C inst a rinst HC Ha Hrc) as Hcopy.
  simpl in Hcopy.
  set (c2 := fresh (dom (inst_heap w))) in *.
  set (ih2 := <[c2 := inst]> (inst_heap w)) in *.
  set (rc2 := fresh (dom ih2)) in *.
  set (I2 := Instance (cls inst) (dicts inst)
               (Some (ContextAttrs (autoescape a) (current_app a)
                        (use_l10n a) (use_tz a) rc2))) in *.
  set (w' := World (dict_heap w) (<[c2 := I2]> (<[rc2 := rinst]> ih2)))
    in *.
  assert (inst_heap w !! c2 = None) as Hc2 by apply fresh_lookup_None.
  assert (ih2 !! rc2 = None) as Hrc2' by apply fresh_lookup_None.
  assert (c2 ≠ C) as HneC by (intros E; rewrite E in Hc2; congruence).
  assert (inst_heap w !! rc2 = None) as Hrc2.
  { unfold ih2 in Hrc2'. rewrite lookup_insert_None in Hrc2'. tauto. }
  assert (rc2 ≠ C) as HneC' by (intros E; rewrite E in Hrc2; congruence).
  assert (inst_heap w' !! c2 = Some I2) as Hi2 by apply lookup_insert_eq.
  assert (inst_heap w' !! C = Some inst) as HC'.
  { simpl. unfold ih2. by rewrite !lookup_insert_ne. }
  assert (frames_of w' (dicts inst) = Some fs) as Hfs'
    by (by rewrite (frames_of_ext w w')).
  exists c2, w'. split_and!; [|done|..].
  - unfold copy, bind at 1, lift, class_of, load_inst. rewrite HC. simpl.
    by destruct Hcls as [-> | ->].
  - rewrite (__eq___frames w' c2 C I2 inst fs fs) by done.
    f_equal. apply dict_eq_spec, same_bindings_refl.
  - rewrite (__eq___frames w' C c2 inst I2 fs fs) by done.
    f_equal. apply dict_eq_spec, same_bindings_refl.
  - by rewrite (flatten_frames w' c2 I2 fs), (flatten_frames w C inst fs).
Qed.

Lemma copy_equals_original_witness :
  ∃ c2 w',
    copy 0 sample_pushed = (Ok c2, w') ∧
    c2 ≠ 0 ∧
    __eq__ c2 (OInst 0) w' = Ok true ∧
    __eq__ 0 (OInst c2) w' = Ok true ∧
    flatten c2 w' = flatten 0 sample_pushed.
Proof.
  apply (copy_equals_original sample_pushed 0
           (Instance ContextC [1; 2; 3]
              (Some (ContextAttrs true None None None 1)))
           (ContextAttrs true None None None 1)
           (Instance RenderContextC [0] None)
           [builtins; {[ "a" := VInt 1 ]};
            {[ "a" := VInt 2; "b" := VInt 3 ]}]).
  - vm_compute. reflexivity.
  - left. reflexivity.
  - reflexivity.
  - vm_compute. reflexivity.
  - vm_compute. reflexivity.
Defined.

(** ** [RequestContext]: the remembered processors, and failures *)

Section request_context_failures.
Context {request : Type}.
Implicit Types (req : request) (ps : list (processor request)).

Lemma call_all_app req ps1 ps2 :
  call_all req (ps1 ++ ps2) =
  obind (call_all req ps1) (λ a,
  obind (call_all req ps2) (λ b, Ok (a ++ b))).
Proof.
  induction ps1 as [|p ps1 IH]; simpl.
  - by destruct (call_all req ps2).
  - destruct (p req); simpl; [|done..]. rewrite IH.
    destruct (call_all req ps1); simpl; [|done..].
    by destruct (call_all req ps2).
Qed.

(** A raising processor ends the loop; only the dict [updates] may have
    changed by then. *)
Lemma run_processors_raise req ps : ∀ w u d e,
  dict_heap w !! u = Some d →
  call_all req ps = Raise e →
  ∃ d',
    run_processors req u ps w =
    (Raise e, World (<[u := d']> (dict_heap w)) (inst_heap w)).
Proof.
  induction ps as [|p ps IH]; intros w u d e Hu Hcall; simpl in Hcall;
    [done|].
  destruct (p req) as [r|e0|] eqn:Hp; simpl in Hcall; [| |done].
  - destruct (call_all req ps) as [rs|e1|] eqn:Hps; simpl in Hcall;
      [done| |done].
    injection Hcall as ->.
    destruct (IH (World (<[u := set_items d (r ∪ items d)]> (dict_heap w))
                    (inst_heap w)) u (set_items d (r ∪ items d)) e)
      as [d' Hd']; [by apply lookup_insert_eq|done|].
    exists d'. simpl.
    unfold bind at 1. rewrite Hp.
    unfold bind at 1, lift, load_dict. rewrite Hu.
    unfold bind at 1, store_dict. rewrite Hd'. simpl.
    by rewrite insert_insert_eq.
  - injection Hcall as ->. exists d. simpl. unfold bind at 1. rewrite Hp.
    rewrite insert_id by done. by destruct w.
Qed.

(** The store when the processors are about to run: the new instance
    [self] with its render context, the two builtins dicts and the empty
    dict [updates]. *)
Lemma RequestContext__init___prefix w TCP imp req dict_ processors app
    l10n tz cache :
  let self := fresh (dom (inst_heap w)) in
  let ih0 := <[self := Instance RequestContextC [] None]> (inst_heap w) in
  let rc := fresh (dom ih0) in
  let b0 := fresh (dom (dict_heap w)) in
  let dh1 := <[b0 := DictObj builtins None]> (dict_heap w) in
  let b := fresh (dom dh1) in
  let dh2 := <[b := DictObj builtins None]> dh1 in
  let u := fresh (dom dh2) in
  let I1 := Instance RequestContextC
              ([b] ++ match dict_ with Some v => [v] | None => [] end)
              (Some (ContextAttrs true app l10n tz rc)) in
  let w2 := World (<[u := DictObj ∅ None]> dh2)
              (<[self := I1]>
                 (<[rc := Instance RenderContextC [b0] None]> ih0)) in
  new_RequestContext TCP imp req dict_ processors app l10n tz cache w =
  match get_standard_processors TCP imp cache with
  | (Ok std, cache') =>
      match (run_processors req u (std ++ default [] processors) ;;;
             update self (PDict u) ;;; ret tt) w2 with
      | (Ok _, w') => ((Ok self, w'), cache')
      | (Raise e, w') => ((Raise e, w'), cache')
      | (Wrong, w') => ((Wrong, w'), cache')
      end
  | (Raise e, cache') => ((Raise e, w2), cache')
  | (Wrong, cache') => ((Wrong, w2), cache')
  end.
Proof.
  intros self ih0 rc b0 dh1 b dh2 u I1 w2.
  unfold new_RequestContext, alloc_inst. fold self. fold ih0.
  unfold RequestContext__init__.
  rewrite (Context__init___result (World (dict_heap w) ih0) self
             (Instance RequestContextC [] None))
    by (simpl; apply lookup_insert_eq).
  simpl. fold rc b0 dh1 b dh2 u. fold I1. fold w2.
  destruct (get_standard_processors TCP imp cache) as [[std|e|] cache'];
    [|done..].
  by destruct processors.
Qed.

Lemma new_RequestContext_ok w TCP imp req dict_ processors app l10n tz
    cache cache' std outs :
  get_standard_processors TCP imp cache = (Ok std, cache') →
  call_all req (std ++ default [] processors) = Ok outs →
  ∃ self w' inst b u,
    new_RequestContext TCP imp req dict_ processors app l10n tz cache w
      = ((Ok self, w'), cache') ∧
    inst_heap w !! self = None ∧
    inst_heap w' !! self = Some inst ∧
    cls inst = RequestContextC ∧
    dicts inst =
      [b] ++ match dict_ with Some v => [v] | None => [] end ++ [u] ∧
    dict_heap w' !! b = Some (DictObj builtins None) ∧
    dict_heap w' !! u = Some (DictObj (merge_frames ∅ outs) None) ∧
    (∀ l, is_Some (dict_heap w !! l) →
          dict_heap w' !! l = dict_heap w !! l) ∧
    (∀ c, is_Some (inst_heap w !! c) →
          inst_heap w' !! c = inst_heap w !! c).
Proof.
  intros Hstd Hcall.
  rewrite RequestContext__init___prefix, Hstd.
  set (self := fresh (dom (inst_heap w))).
  set (ih0 := <[self := Instance RequestContextC [] None]> (inst_heap w)).
  set (rc := fresh (dom ih0)).
  set (b0 := fresh (dom (dict_heap w))).
  set (dh1 := <[b0 := DictObj builtins None]> (dict_heap w)).
  set (b := fresh (dom dh1)).
  set (dh2 := <[b := DictObj builtins None]> dh1).
  set (u := fresh (dom dh2)).
  set (I1 := Instance RequestContextC _ _).
  set (ih1 := <[self := I1]> _).
  assert (dict_heap w !! b0 = None) as Hb0 by apply fresh_lookup_None.
  assert (dh1 !! b = None) as Hb1 by apply fresh_lookup_None.
  assert (dh2 !! u = None) as Hu2 by apply fresh_lookup_None.
  unfold dh2 in Hu2. apply lookup_insert_None in Hu2 as [Hu1 Hub].
  unfold dh1 in Hb1, Hu1.
  apply lookup_insert_None in Hb1 as [Hb Hbb0].
  apply lookup_insert_None in Hu1 as [Hu Hub0].
  assert (ih0 !! rc = None) as Hrc0 by apply fresh_lookup_None.
  unfold ih0 in Hrc0. apply lookup_insert_None in Hrc0 as [Hrc Hrcs].
  unfold bind at 1.
  rewrite (run_processors_result req _ _ u (DictObj ∅ None) outs);
    [|by apply lookup_insert_eq|done].
  simpl. rewrite insert_insert_eq.
  unfold bind at 1, update, bind at 1, lift, class_of, load_inst.
  simpl. unfold ih1 at 1. rewrite lookup_insert_eq. simpl.
  rewrite (Context_update_dict _ self I1)
    by (simpl; apply lookup_insert_eq).
  simpl.
  eexists self, _, _, b, u. split_and!; [reflexivity|..].
  - apply fresh_lookup_None.
  - simpl. apply lookup_insert_eq.
  - done.
  - reflexivity.
  - simpl. rewrite lookup_insert_ne by done. apply lookup_insert_eq.
  - simpl. apply lookup_insert_eq.
  - intros l [x Hl]. simpl. unfold dh2, dh1.
    rewrite !lookup_insert_ne;
      [done|intros E; rewrite <- E in Hl; congruence..].
  - intros c [x Hc]. simpl. unfold ih1, ih0.
    assert (inst_heap w !! self = None) by apply fresh_lookup_None.
    rewrite !lookup_insert_ne;
      [done|intros E; rewrite <- E in Hc; congruence..].
Qed.

(** The standard processors are read once. After a first
    [RequestContext] was built, a later one runs the processors imported
    then, followed by the caller's, whatever the settings and the import
    function have become in the meantime. *)
Theorem standard_processors_read_once (w : world)
    (TCP : list string) (imp : string → outcome (processor request))
    (req1 req2 : request) (d1 d2 : option loc)
    (ps1 ps2 : option (list (processor request)))
    (app1 app2 : option string) (l1 t1 l2 t2 : option bool)
    (bs cs : list (processor request)) (outs1 outs2 : list frame) :
  import_all imp _builtin_context_processors = Ok bs →
  import_all imp TCP = Ok cs →
  call_all req1 ((bs ++ cs) ++ default [] ps1) = Ok outs1 →
  call_all req2 ((bs ++ cs) ++ default [] ps2) = Ok outs2 →
  ∃ c1 w1,
    new_RequestContext TCP imp req1 d1 ps1 app1 l1 t1 None w
      = ((Ok c1, w1), Some (bs ++ cs)) ∧
    ∀ TCP' imp', ∃ c2 w2 inst2 b2 u2,
      new_RequestContext TCP' imp' req2 d2 ps2 app2 l2 t2
        (Some (bs ++ cs)) w1
        = ((Ok c2, w2), Some (bs ++ cs)) ∧
      c2 ≠ c1 ∧
      inst_heap w2 !! c2 = Some inst2 ∧
      dicts inst2 =
        [b2] ++ match d2 with Some v => [v] | None => [] end ++ [u2] ∧
      dict_heap w2 !! u2 = Some (DictObj (merge_frames ∅ outs2) None).
Proof.
  intros Hbs Hcs Hcall1 Hcall2.
  assert (get_standard_processors TCP imp None
          = (Ok (bs ++ cs), Some (bs ++ cs))) as Hstd.
  { unfold get_standard_processors. by rewrite import_all_app, Hbs, Hcs. }
  destruct (new_RequestContext_ok w TCP imp req1 d1 ps1 app1 l1 t1 None _ _
              outs1 Hstd Hcall1)
    as (c1 & w1 & inst1 & b1 & u1 & Hnew1 & _ & Hi1 & _).
  exists c1, w1. split; [done|]. intros TCP' imp'.
  destruct (new_RequestContext_ok w1 TCP' imp' req2 d2 ps2 app2 l2 t2
              (Some (bs ++ cs)) (Some (bs ++ cs)) (bs ++ cs) outs2
              eq_refl Hcall2)
    as (c2 & w2 & inst2 & b2 & u2 & Hnew2 & Hfresh & Hi2 & _ & Hd2 & _
        & Hu2 & _).
  exists c2, w2, inst2, b2, u2. split_and!; try done.
  intros ->. congruence.
Qed.

(** When a processor raises, the constructor raises the same exception.
    The processors before it were called, those after it were not needed;
    the processors imported for this call stay remembered; the instance
    under construction has the builtins (and [dict_]) and no frame of
    processor output, and no object that existed has changed. *)
Theorem processor_exception_propagates (w : world)
    (TCP : list string) (imp : string → outcome (processor request))
    (req : request) (dict_ : option loc)
    (processors : option (list (processor request)))
    (app : option string) (l10n tz : option bool)
    (bs cs pre post : list (processor request)) (p : processor request)
    (outs : list frame) (e : exn) :
  import_all imp _builtin_context_processors = Ok bs →
  import_all imp TCP = Ok cs →
  (bs ++ cs) ++ default [] processors = pre ++ p :: post →
  call_all req pre = Ok outs →
  p req = Raise e →
  ∃ self w' inst b,
    new_RequestContext TCP imp req dict_ processors app l10n tz None w
      = ((Raise e, w'), Some (bs ++ cs)) ∧
    inst_heap w !! self = None ∧
    inst_heap w' !! self = Some inst ∧
    dicts inst = [b] ++ match dict_ with Some v => [v] | None => [] end ∧
    dict_heap w' !! b = Some (DictObj builtins None) ∧
    (∀ l, is_Some (dict_heap w !! l) →
          dict_heap w' !! l = dict_heap w !! l) ∧
    (∀ c, is_Some (inst_heap w !! c) →
          inst_heap w' !! c = inst_heap w !! c).
Proof.
  intros Hbs Hcs Hsplit Hpre Hp.
  assert (get_standard_processors TCP imp None
          = (Ok (bs ++ cs), Some (bs ++ cs))) as Hstd.
  { unfold get_standard_processors. by rewrite import_all_app, Hbs, Hcs. }
  assert (call_all req ((bs ++ cs) ++ default [] processors) = Raise e)
    as Hcall.
  { rewrite Hsplit, call_all_app, Hpre. simpl. by rewrite Hp. }
  rewrite RequestContext__init___prefix, Hstd.
  set (self := fresh (dom (inst_heap w))).
  set (ih0 := <[self := Instance RequestContextC [] None]> (inst_heap w)).
  set (rc := fresh (dom ih0)).
  set (b0 := fresh (dom (dict_heap w))).
  set (dh1 := <[b0 := DictObj builtins None]> (dict_heap w)).
  set (b := fresh (dom dh1)).
  set (dh2 := <[b := DictObj builtins None]> dh1).
  set (u := fresh (dom dh2)).
  set (I1 := Instance RequestContextC _ _).
  set (ih1 := <[self := I1]> _).
  assert (dict_heap w !! b0 = None) as Hb0 by apply fresh_lookup_None.
  assert (dh1 !! b = None) as Hb1 by apply fresh_lookup_None.
  assert (dh2 !! u = None) as Hu2 by apply fresh_lookup_None.
  unfold dh2 in Hu2. apply lookup_insert_None in Hu2 as [Hu1 Hub].
  unfold dh1 in Hb1, Hu1.
  apply lookup_insert_None in Hb1 as [Hb Hbb0].
  apply lookup_insert_None in Hu1 as [Hu Hub0].
  assert (ih0 !! rc = None) as Hrc0 by apply fresh_lookup_None.
  unfold ih0 in Hrc0. apply lookup_insert_None in Hrc0 as [Hrc Hrcs].
  destruct (run_processors_raise req _
              (World (<[u := DictObj ∅ None]> dh2) ih1) u (DictObj ∅ None)
              e (lookup_insert_eq _ _ _) Hcall) as [d' Hd'].
  unfold bind at 1. rewrite Hd'. simpl. rewrite insert_insert_eq.
  eexists self, _, I1, b. split_and!; [reflexivity|..].
  - apply fresh_lookup_None.
  - simpl. apply lookup_insert_eq.
  - reflexivity.
  - simpl. rewrite lookup_insert_ne by done. apply lookup_insert_eq.
  - intros l [x Hl]. simpl. unfold dh2, dh1.
    rewrite !lookup_insert_ne;
      [done|intros E; rewrite <- E in Hl; congruence..].
  - intros c [x Hc]. simpl. unfold ih1, ih0.
    assert (inst_heap w !! self = None) by apply fresh_lookup_None.
    rewrite !lookup_insert_ne;
      [done|intros E; rewrite <- E in Hc; congruence..].
Qed.

(** When an import fails on first use, the constructor raises the
    import's exception and nothing is remembered, so the next
    construction imports again; no object that existed has changed. *)
Theorem import_failure_not_remembered (w : world)
    (TCP : list string) (imp : string → outcome (processor request))
    (req : request) (dict_ : option loc)
    (processors : option (list (processor request)))
    (app : option string) (l10n tz : option bool) (e : exn) :
  import_all imp (_builtin_context_processors ++ TCP) = Raise e →
  ∃ w',
    new_RequestContext TCP imp req dict_ processors app l10n tz None w
      = ((Raise e, w'), None) ∧
    (∀ l, is_Some (dict_heap w !! l) →
          dict_heap w' !! l = dict_heap w !! l) ∧
    (∀ c, is_Some (inst_heap w !! c) →
          inst_heap w' !! c = inst_heap w !! c).
Proof.
  intros Himp.
  rewrite RequestContext__init___prefix.
  unfold get_standard_processors. rewrite Himp.
  set (self := fresh (dom (inst_heap w))).
  set (ih0 := <[self := Instance RequestContextC [] None]> (inst_heap w)).
  set (rc := fresh (dom ih0)).
  set (b0 := fresh (dom (dict_heap w))).
  set (dh1 := <[b0 := DictObj builtins None]> (dict_heap w)).
  set (b := fresh (dom dh1)).
  set (dh2 := <[b := DictObj builtins None]> dh1).
  set (u := fresh (dom dh2)).
  assert (dict_heap w !! b0 = None) as Hb0 by apply fresh_lookup_None.
  assert (dh1 !! b = None) as Hb1 by apply fresh_lookup_None.
  assert (dh2 !! u = None) as Hu2 by apply fresh_lookup_None.
  unfold dh2 in Hu2. apply lookup_insert_None in Hu2 as [Hu1 Hub].
  unfold dh1 in Hb1, Hu1.
  apply lookup_insert_None in Hb1 as [Hb Hbb0].
  apply lookup_insert_None in Hu1 as [Hu Hub0].
  assert (ih0 !! rc = None) as Hrc0 by apply fresh_lookup_None.
  unfold ih0 in Hrc0. apply lookup_insert_None in Hrc0 as [Hrc Hrcs].
  eexists. split_and!; [reflexivity|..].
  - intros l [x Hl]. simpl. unfold dh2, dh1.
    rewrite !lookup_insert_ne;
      [done|intros E; rewrite <- E in Hl; congruence..].
  - intros c [x Hc]. simpl. unfold ih0.
    assert (inst_heap w !! self = None) by apply fresh_lookup_None.
    rewrite !lookup_insert_ne;
      [done|intros E; rewrite <- E in Hc; congruence..].
Qed.
End request_context_failures.

Lemma standard_processors_read_once_witness :
  ∃ c1 w1,
    new_RequestContext ["configured"] sample_import tt None None None None
      None None empty_world
      = ((Ok c1, w1), Some [sample_builtin; sample_configured]) ∧
    ∃ c2 w2 inst2 b2 u2,
      new_RequestContext [] sample_import_broken tt None
        (Some [sample_caller]) None None None
        (Some [sample_builtin; sample_configured]) w1
        = ((Ok c2, w2), Some [sample_builtin; sample_configured]) ∧
      c2 ≠ c1 ∧
      inst_heap w2 !! c2 = Some inst2 ∧
      dicts inst2 = [b2; u2] ∧
      dict_heap w2 !! u2 =
        Some (DictObj {[ "a" := VInt 2; "b" := VInt 3; "c" := VInt 3 ]}
                None).
Proof.
  destruct (standard_processors_read_once empty_world ["configured"]
              sample_import tt tt None None None (Some [sample_caller])
              None None None None None None
              [sample_builtin] [sample_configured]
              [ {[ "a" := VInt 1 ]}; {[ "a" := VInt 2; "b" := VInt 2 ]} ]
              [ {[ "a" := VInt 1 ]}; {[ "a" := VInt 2; "b" := VInt 2 ]};
                {[ "b" := VInt 3; "c" := VInt 3 ]} ])
    as (c1 & w1 & Hnew1 & Hlater); [reflexivity..|].
  exists c1, w1. split; [exact Hnew1|].
  destruct (Hlater [] sample_import_broken)
    as (c2 & w2 & inst2 & b2 & u2 & Hnew2 & Hne & Hi2 & Hd2 & Hu2).
  exists c2, w2, inst2, b2, u2. split_and!; [done..|].
  etrans; [exact Hu2|]. vm_compute. reflexivity.
Defined.

Lemma processor_exception_propagates_witness :
  ∃ self w' inst b,
    new_RequestContext ["configured"] sample_import tt None
      (Some [sample_failing; sample_caller]) None None None None empty_world
      = ((Raise (ProcessorError 1), w'),
         Some [sample_builtin; sample_configured]) ∧
    inst_heap w' !! self = Some inst ∧
    dicts inst = [b] ∧
    dict_heap w' !! b = Some (DictObj builtins None).
Proof.
  destruct (processor_exception_propagates empty_world ["configured"]
              sample_import tt None (Some [sample_failing; sample_caller])
              None None None [sample_builtin] [sample_configured]
              [sample_builtin; sample_configured] [sample_caller]
              sample_failing
              [ {[ "a" := VInt 1 ]}; {[ "a" := VInt 2; "b" := VInt 2 ]} ]
              (ProcessorError 1))
    as (self & w' & inst & b & Hnew & _ & Hi & Hd & Hb & _);
    [reflexivity..|].
  by exists self, w', inst, b.
Defined.

Lemma import_failure_not_remembered_witness :
  ∃ w',
    new_RequestContext ["missing"] sample_import tt None None None None
      None None sample_pushed
      = ((Raise ImportError, w'), None) ∧
    inst_heap w' !! 0 = inst_heap sample_pushed !! 0.
Proof.
  destruct (import_failure_not_remembered sample_pushed ["missing"]
              sample_import tt None None None None None ImportError)
    as (w' & Hnew & _ & Hih); [reflexivity|].
  exists w'. split; [exact Hnew|].
  apply Hih. vm_compute. eexists. reflexivity.
Defined.
